(** * SMS gateway automation: the messenger webhook and the Android gateway

    A shallow embedding of [messenger_server.py] (message parsing and
    forwarding) and [server.py] (transaction intake, reference generation,
    queue inspection), with the properties of the specification stated and
    proved over it.

    Conventions of the embedding.
    - A Python [str] is the list of its code points, a [pystr]; [lit]
      turns a literal into one.  The Unicode properties of characters
      (whitespace, decimal digit value, alphanumeric, upper case) are those
      of Unicode 14.0.0, the character database of CPython 3.11.
    - A Python [int] is a [Z].
    - A decoded JSON value is a [json]; a JSON object is a [gmap] from
      strings to values.
    - The handlers are functions of their request and of what they read
      from the outside (clock, random bytes, the gateway's reply); the
      gateway's [transaction_queue] is passed in and returned. *)

From Stdlib Require Import ZArith String Ascii List Lia Bool.
From stdpp Require Import gmap strings pretty.

Set Warnings "-register-all".
Open Scope Z_scope.

(** ** Python primitives used by the two programs *)

Module Py.

(** *** Text *)

Definition pystr : Type := list Z.

Definition code (c : ascii) : Z := Z.of_N (N_of_ascii c).

Definition lit (s : string) : pystr := map code (list_ascii_of_string s).

(** *** The character database *)

(** The whitespace characters of [str.isspace], [str.strip] and
    [str.split]. *)
Definition space_ranges : list (Z * Z) :=
  [
   (9, 13); (28, 32); (133, 133); (160, 160); (5760, 5760); (8192, 8202);
   (8232, 8233); (8239, 8239); (8287, 8287); (12288, 12288)
  ].

(** The decimal digits (category Nd), in runs of ten. *)
Definition decimal_ranges : list (Z * Z) :=
  [
   (48, 57); (1632, 1641); (1776, 1785); (1984, 1993); (2406, 2415); (2534, 2543);
   (2662, 2671); (2790, 2799); (2918, 2927); (3046, 3055); (3174, 3183); (3302, 3311);
   (3430, 3439); (3558, 3567); (3664, 3673); (3792, 3801); (3872, 3881); (4160, 4169);
   (4240, 4249); (6112, 6121); (6160, 6169); (6470, 6479); (6608, 6617); (6784, 6793);
   (6800, 6809); (6992, 7001); (7088, 7097); (7232, 7241); (7248, 7257); (42528, 42537);
   (43216, 43225); (43264, 43273); (43472, 43481); (43504, 43513); (43600, 43609); (44016, 44025);
   (65296, 65305); (66720, 66729); (68912, 68921); (69734, 69743); (69872, 69881); (69942, 69951);
   (70096, 70105); (70384, 70393); (70736, 70745); (70864, 70873); (71248, 71257); (71360, 71369);
   (71472, 71481); (71904, 71913); (72016, 72025); (72784, 72793); (73040, 73049); (73120, 73129);
   (92768, 92777); (92864, 92873); (93008, 93017); (120782, 120831); (123200, 123209); (123632, 123641);
   (125264, 125273); (130032, 130041)
  ].

(** The characters for which [str.isalnum] holds. *)
Definition alnum_ranges : list (Z * Z) :=
  [
   (48, 57); (65, 90); (97, 122); (170, 170); (178, 179); (181, 181);
   (185, 186); (188, 190); (192, 214); (216, 246); (248, 705); (710, 721);
   (736, 740); (748, 748); (750, 750); (880, 884); (886, 887); (890, 893);
   (895, 895); (902, 902); (904, 906); (908, 908); (910, 929); (931, 1013);
   (1015, 1153); (1162, 1327); (1329, 1366); (1369, 1369); (1376, 1416); (1488, 1514);
   (1519, 1522); (1568, 1610); (1632, 1641); (1646, 1647); (1649, 1747); (1749, 1749);
   (1765, 1766); (1774, 1788); (1791, 1791); (1808, 1808); (1810, 1839); (1869, 1957);
   (1969, 1969); (1984, 2026); (2036, 2037); (2042, 2042); (2048, 2069); (2074, 2074);
   (2084, 2084); (2088, 2088); (2112, 2136); (2144, 2154); (2160, 2183); (2185, 2190);
   (2208, 2249); (2308, 2361); (2365, 2365); (2384, 2384); (2392, 2401); (2406, 2415);
   (2417, 2432); (2437, 2444); (2447, 2448); (2451, 2472); (2474, 2480); (2482, 2482);
   (2486, 2489); (2493, 2493); (2510, 2510); (2524, 2525); (2527, 2529); (2534, 2545);
   (2548, 2553); (2556, 2556); (2565, 2570); (2575, 2576); (2579, 2600); (2602, 2608);
   (2610, 2611); (2613, 2614); (2616, 2617); (2649, 2652); (2654, 2654); (2662, 2671);
   (2674, 2676); (2693, 2701); (2703, 2705); (2707, 2728); (2730, 2736); (2738, 2739);
   (2741, 2745); (2749, 2749); (2768, 2768); (2784, 2785); (2790, 2799); (2809, 2809);
   (2821, 2828); (2831, 2832); (2835, 2856); (2858, 2864); (2866, 2867); (2869, 2873);
   (2877, 2877); (2908, 2909); (2911, 2913); (2918, 2927); (2929, 2935); (2947, 2947);
   (2949, 2954); (2958, 2960); (2962, 2965); (2969, 2970); (2972, 2972); (2974, 2975);
   (2979, 2980); (2984, 2986); (2990, 3001); (3024, 3024); (3046, 3058); (3077, 3084);
   (3086, 3088); (3090, 3112); (3114, 3129); (3133, 3133); (3160, 3162); (3165, 3165);
   (3168, 3169); (3174, 3183); (3192, 3198); (3200, 3200); (3205, 3212); (3214, 3216);
   (3218, 3240); (3242, 3251); (3253, 3257); (3261, 3261); (3293, 3294); (3296, 3297);
   (3302, 3311); (3313, 3314); (3332, 3340); (3342, 3344); (3346, 3386); (3389, 3389);
   (3406, 3406); (3412, 3414); (3416, 3425); (3430, 3448); (3450, 3455); (3461, 3478);
   (3482, 3505); (3507, 3515); (3517, 3517); (3520, 3526); (3558, 3567); (3585, 3632);
   (3634, 3635); (3648, 3654); (3664, 3673); (3713, 3714); (3716, 3716); (3718, 3722);
   (3724, 3747); (3749, 3749); (3751, 3760); (3762, 3763); (3773, 3773); (3776, 3780);
   (3782, 3782); (3792, 3801); (3804, 3807); (3840, 3840); (3872, 3891); (3904, 3911);
   (3913, 3948); (3976, 3980); (4096, 4138); (4159, 4169); (4176, 4181); (4186, 4189);
   (4193, 4193); (4197, 4198); (4206, 4208); (4213, 4225); (4238, 4238); (4240, 4249);
   (4256, 4293); (4295, 4295); (4301, 4301); (4304, 4346); (4348, 4680); (4682, 4685);
   (4688, 4694); (4696, 4696); (4698, 4701); (4704, 4744); (4746, 4749); (4752, 4784);
   (4786, 4789); (4792, 4798); (4800, 4800); (4802, 4805); (4808, 4822); (4824, 4880);
   (4882, 4885); (4888, 4954); (4969, 4988); (4992, 5007); (5024, 5109); (5112, 5117);
   (5121, 5740); (5743, 5759); (5761, 5786); (5792, 5866); (5870, 5880); (5888, 5905);
   (5919, 5937); (5952, 5969); (5984, 5996); (5998, 6000); (6016, 6067); (6103, 6103);
   (6108, 6108); (6112, 6121); (6128, 6137); (6160, 6169); (6176, 6264); (6272, 6276);
   (6279, 6312); (6314, 6314); (6320, 6389); (6400, 6430); (6470, 6509); (6512, 6516);
   (6528, 6571); (6576, 6601); (6608, 6618); (6656, 6678); (6688, 6740); (6784, 6793);
   (6800, 6809); (6823, 6823); (6917, 6963); (6981, 6988); (6992, 7001); (7043, 7072);
   (7086, 7141); (7168, 7203); (7232, 7241); (7245, 7293); (7296, 7304); (7312, 7354);
   (7357, 7359); (7401, 7404); (7406, 7411); (7413, 7414); (7418, 7418); (7424, 7615);
   (7680, 7957); (7960, 7965); (7968, 8005); (8008, 8013); (8016, 8023); (8025, 8025);
   (8027, 8027); (8029, 8029); (8031, 8061); (8064, 8116); (8118, 8124); (8126, 8126);
   (8130, 8132); (8134, 8140); (8144, 8147); (8150, 8155); (8160, 8172); (8178, 8180);
   (8182, 8188); (8304, 8305); (8308, 8313); (8319, 8329); (8336, 8348); (8450, 8450);
   (8455, 8455); (8458, 8467); (8469, 8469); (8473, 8477); (8484, 8484); (8486, 8486);
   (8488, 8488); (8490, 8493); (8495, 8505); (8508, 8511); (8517, 8521); (8526, 8526);
   (8528, 8585); (9312, 9371); (9450, 9471); (10102, 10131); (11264, 11492); (11499, 11502);
   (11506, 11507); (11517, 11517); (11520, 11557); (11559, 11559); (11565, 11565); (11568, 11623);
   (11631, 11631); (11648, 11670); (11680, 11686); (11688, 11694); (11696, 11702); (11704, 11710);
   (11712, 11718); (11720, 11726); (11728, 11734); (11736, 11742); (11823, 11823); (12293, 12295);
   (12321, 12329); (12337, 12341); (12344, 12348); (12353, 12438); (12445, 12447); (12449, 12538);
   (12540, 12543); (12549, 12591); (12593, 12686); (12690, 12693); (12704, 12735); (12784, 12799);
   (12832, 12841); (12872, 12879); (12881, 12895); (12928, 12937); (12977, 12991); (13312, 19903);
   (19968, 42124); (42192, 42237); (42240, 42508); (42512, 42539); (42560, 42606); (42623, 42653);
   (42656, 42735); (42775, 42783); (42786, 42888); (42891, 42954); (42960, 42961); (42963, 42963);
   (42965, 42969); (42994, 43009); (43011, 43013); (43015, 43018); (43020, 43042); (43056, 43061);
   (43072, 43123); (43138, 43187); (43216, 43225); (43250, 43255); (43259, 43259); (43261, 43262);
   (43264, 43301); (43312, 43334); (43360, 43388); (43396, 43442); (43471, 43481); (43488, 43492);
   (43494, 43518); (43520, 43560); (43584, 43586); (43588, 43595); (43600, 43609); (43616, 43638);
   (43642, 43642); (43646, 43695); (43697, 43697); (43701, 43702); (43705, 43709); (43712, 43712);
   (43714, 43714); (43739, 43741); (43744, 43754); (43762, 43764); (43777, 43782); (43785, 43790);
   (43793, 43798); (43808, 43814); (43816, 43822); (43824, 43866); (43868, 43881); (43888, 44002);
   (44016, 44025); (44032, 55203); (55216, 55238); (55243, 55291); (63744, 64109); (64112, 64217);
   (64256, 64262); (64275, 64279); (64285, 64285); (64287, 64296); (64298, 64310); (64312, 64316);
   (64318, 64318); (64320, 64321); (64323, 64324); (64326, 64433); (64467, 64829); (64848, 64911);
   (64914, 64967); (65008, 65019); (65136, 65140); (65142, 65276); (65296, 65305); (65313, 65338);
   (65345, 65370); (65382, 65470); (65474, 65479); (65482, 65487); (65490, 65495); (65498, 65500);
   (65536, 65547); (65549, 65574); (65576, 65594); (65596, 65597); (65599, 65613); (65616, 65629);
   (65664, 65786); (65799, 65843); (65856, 65912); (65930, 65931); (66176, 66204); (66208, 66256);
   (66273, 66299); (66304, 66339); (66349, 66378); (66384, 66421); (66432, 66461); (66464, 66499);
   (66504, 66511); (66513, 66517); (66560, 66717); (66720, 66729); (66736, 66771); (66776, 66811);
   (66816, 66855); (66864, 66915); (66928, 66938); (66940, 66954); (66956, 66962); (66964, 66965);
   (66967, 66977); (66979, 66993); (66995, 67001); (67003, 67004); (67072, 67382); (67392, 67413);
   (67424, 67431); (67456, 67461); (67463, 67504); (67506, 67514); (67584, 67589); (67592, 67592);
   (67594, 67637); (67639, 67640); (67644, 67644); (67647, 67669); (67672, 67702); (67705, 67742);
   (67751, 67759); (67808, 67826); (67828, 67829); (67835, 67867); (67872, 67897); (67968, 68023);
   (68028, 68047); (68050, 68096); (68112, 68115); (68117, 68119); (68121, 68149); (68160, 68168);
   (68192, 68222); (68224, 68255); (68288, 68295); (68297, 68324); (68331, 68335); (68352, 68405);
   (68416, 68437); (68440, 68466); (68472, 68497); (68521, 68527); (68608, 68680); (68736, 68786);
   (68800, 68850); (68858, 68899); (68912, 68921); (69216, 69246); (69248, 69289); (69296, 69297);
   (69376, 69415); (69424, 69445); (69457, 69460); (69488, 69505); (69552, 69579); (69600, 69622);
   (69635, 69687); (69714, 69743); (69745, 69746); (69749, 69749); (69763, 69807); (69840, 69864);
   (69872, 69881); (69891, 69926); (69942, 69951); (69956, 69956); (69959, 69959); (69968, 70002);
   (70006, 70006); (70019, 70066); (70081, 70084); (70096, 70106); (70108, 70108); (70113, 70132);
   (70144, 70161); (70163, 70187); (70272, 70278); (70280, 70280); (70282, 70285); (70287, 70301);
   (70303, 70312); (70320, 70366); (70384, 70393); (70405, 70412); (70415, 70416); (70419, 70440);
   (70442, 70448); (70450, 70451); (70453, 70457); (70461, 70461); (70480, 70480); (70493, 70497);
   (70656, 70708); (70727, 70730); (70736, 70745); (70751, 70753); (70784, 70831); (70852, 70853);
   (70855, 70855); (70864, 70873); (71040, 71086); (71128, 71131); (71168, 71215); (71236, 71236);
   (71248, 71257); (71296, 71338); (71352, 71352); (71360, 71369); (71424, 71450); (71472, 71483);
   (71488, 71494); (71680, 71723); (71840, 71922); (71935, 71942); (71945, 71945); (71948, 71955);
   (71957, 71958); (71960, 71983); (71999, 71999); (72001, 72001); (72016, 72025); (72096, 72103);
   (72106, 72144); (72161, 72161); (72163, 72163); (72192, 72192); (72203, 72242); (72250, 72250);
   (72272, 72272); (72284, 72329); (72349, 72349); (72368, 72440); (72704, 72712); (72714, 72750);
   (72768, 72768); (72784, 72812); (72818, 72847); (72960, 72966); (72968, 72969); (72971, 73008);
   (73030, 73030); (73040, 73049); (73056, 73061); (73063, 73064); (73066, 73097); (73112, 73112);
   (73120, 73129); (73440, 73458); (73648, 73648); (73664, 73684); (73728, 74649); (74752, 74862);
   (74880, 75075); (77712, 77808); (77824, 78894); (82944, 83526); (92160, 92728); (92736, 92766);
   (92768, 92777); (92784, 92862); (92864, 92873); (92880, 92909); (92928, 92975); (92992, 92995);
   (93008, 93017); (93019, 93025); (93027, 93047); (93053, 93071); (93760, 93846); (93952, 94026);
   (94032, 94032); (94099, 94111); (94176, 94177); (94179, 94179); (94208, 100343); (100352, 101589);
   (101632, 101640); (110576, 110579); (110581, 110587); (110589, 110590); (110592, 110882); (110928, 110930);
   (110948, 110951); (110960, 111355); (113664, 113770); (113776, 113788); (113792, 113800); (113808, 113817);
   (119520, 119539); (119648, 119672); (119808, 119892); (119894, 119964); (119966, 119967); (119970, 119970);
   (119973, 119974); (119977, 119980); (119982, 119993); (119995, 119995); (119997, 120003); (120005, 120069);
   (120071, 120074); (120077, 120084); (120086, 120092); (120094, 120121); (120123, 120126); (120128, 120132);
   (120134, 120134); (120138, 120144); (120146, 120485); (120488, 120512); (120514, 120538); (120540, 120570);
   (120572, 120596); (120598, 120628); (120630, 120654); (120656, 120686); (120688, 120712); (120714, 120744);
   (120746, 120770); (120772, 120779); (120782, 120831); (122624, 122654); (123136, 123180); (123191, 123197);
   (123200, 123209); (123214, 123214); (123536, 123565); (123584, 123627); (123632, 123641); (124896, 124902);
   (124904, 124907); (124909, 124910); (124912, 124926); (124928, 125124); (125127, 125135); (125184, 125251);
   (125259, 125259); (125264, 125273); (126065, 126123); (126125, 126127); (126129, 126132); (126209, 126253);
   (126255, 126269); (126464, 126467); (126469, 126495); (126497, 126498); (126500, 126500); (126503, 126503);
   (126505, 126514); (126516, 126519); (126521, 126521); (126523, 126523); (126530, 126530); (126535, 126535);
   (126537, 126537); (126539, 126539); (126541, 126543); (126545, 126546); (126548, 126548); (126551, 126551);
   (126553, 126553); (126555, 126555); (126557, 126557); (126559, 126559); (126561, 126562); (126564, 126564);
   (126567, 126570); (126572, 126578); (126580, 126583); (126585, 126588); (126590, 126590); (126592, 126601);
   (126603, 126619); (126625, 126627); (126629, 126633); (126635, 126651); (127232, 127244); (130032, 130041);
   (131072, 173791); (173824, 177976); (177984, 178205); (178208, 183969); (183984, 191456); (194560, 195101);
   (196608, 201546)
  ].

(** The characters that [str.upper] changes, each with what it becomes. *)
Definition upper_table : list (Z * list Z) :=
  [
   (97, [65]); (98, [66]); (99, [67]); (100, [68]); (101, [69]);
   (102, [70]); (103, [71]); (104, [72]); (105, [73]); (106, [74]);
   (107, [75]); (108, [76]); (109, [77]); (110, [78]); (111, [79]);
   (112, [80]); (113, [81]); (114, [82]); (115, [83]); (116, [84]);
   (117, [85]); (118, [86]); (119, [87]); (120, [88]); (121, [89]);
   (122, [90]); (181, [924]); (223, [83; 83]); (224, [192]); (225, [193]);
   (226, [194]); (227, [195]); (228, [196]); (229, [197]); (230, [198]);
   (231, [199]); (232, [200]); (233, [201]); (234, [202]); (235, [203]);
   (236, [204]); (237, [205]); (238, [206]); (239, [207]); (240, [208]);
   (241, [209]); (242, [210]); (243, [211]); (244, [212]); (245, [213]);
   (246, [214]); (248, [216]); (249, [217]); (250, [218]); (251, [219]);
   (252, [220]); (253, [221]); (254, [222]); (255, [376]); (257, [256]);
   (259, [258]); (261, [260]); (263, [262]); (265, [264]); (267, [266]);
   (269, [268]); (271, [270]); (273, [272]); (275, [274]); (277, [276]);
   (279, [278]); (281, [280]); (283, [282]); (285, [284]); (287, [286]);
   (289, [288]); (291, [290]); (293, [292]); (295, [294]); (297, [296]);
   (299, [298]); (301, [300]); (303, [302]); (305, [73]); (307, [306]);
   (309, [308]); (311, [310]); (314, [313]); (316, [315]); (318, [317]);
   (320, [319]); (322, [321]); (324, [323]); (326, [325]); (328, [327]);
   (329, [700; 78]); (331, [330]); (333, [332]); (335, [334]); (337, [336]);
   (339, [338]); (341, [340]); (343, [342]); (345, [344]); (347, [346]);
   (349, [348]); (351, [350]); (353, [352]); (355, [354]); (357, [356]);
   (359, [358]); (361, [360]); (363, [362]); (365, [364]); (367, [366]);
   (369, [368]); (371, [370]); (373, [372]); (375, [374]); (378, [377]);
   (380, [379]); (382, [381]); (383, [83]); (384, [579]); (387, [386]);
   (389, [388]); (392, [391]); (396, [395]); (402, [401]); (405, [502]);
   (409, [408]); (410, [573]); (414, [544]); (417, [416]); (419, [418]);
   (421, [420]); (424, [423]); (429, [428]); (432, [431]); (436, [435]);
   (438, [437]); (441, [440]); (445, [444]); (447, [503]); (453, [452]);
   (454, [452]); (456, [455]); (457, [455]); (459, [458]); (460, [458]);
   (462, [461]); (464, [463]); (466, [465]); (468, [467]); (470, [469]);
   (472, [471]); (474, [473]); (476, [475]); (477, [398]); (479, [478]);
   (481, [480]); (483, [482]); (485, [484]); (487, [486]); (489, [488]);
   (491, [490]); (493, [492]); (495, [494]); (496, [74; 780]); (498, [497]);
   (499, [497]); (501, [500]); (505, [504]); (507, [506]); (509, [508]);
   (511, [510]); (513, [512]); (515, [514]); (517, [516]); (519, [518]);
   (521, [520]); (523, [522]); (525, [524]); (527, [526]); (529, [528]);
   (531, [530]); (533, [532]); (535, [534]); (537, [536]); (539, [538]);
   (541, [540]); (543, [542]); (547, [546]); (549, [548]); (551, [550]);
   (553, [552]); (555, [554]); (557, [556]); (559, [558]); (561, [560]);
   (563, [562]); (572, [571]); (575, [11390]); (576, [11391]); (578, [577]);
   (583, [582]); (585, [584]); (587, [586]); (589, [588]); (591, [590]);
   (592, [11375]); (593, [11373]); (594, [11376]); (595, [385]); (596, [390]);
   (598, [393]); (599, [394]); (601, [399]); (603, [400]); (604, [42923]);
   (608, [403]); (609, [42924]); (611, [404]); (613, [42893]); (614, [42922]);
   (616, [407]); (617, [406]); (618, [42926]); (619, [11362]); (620, [42925]);
   (623, [412]); (625, [11374]); (626, [413]); (629, [415]); (637, [11364]);
   (640, [422]); (642, [42949]); (643, [425]); (647, [42929]); (648, [430]);
   (649, [580]); (650, [433]); (651, [434]); (652, [581]); (658, [439]);
   (669, [42930]); (670, [42928]); (837, [921]); (881, [880]); (883, [882]);
   (887, [886]); (891, [1021]); (892, [1022]); (893, [1023]); (912, [921; 776; 769]);
   (940, [902]); (941, [904]); (942, [905]); (943, [906]); (944, [933; 776; 769]);
   (945, [913]); (946, [914]); (947, [915]); (948, [916]); (949, [917]);
   (950, [918]); (951, [919]); (952, [920]); (953, [921]); (954, [922]);
   (955, [923]); (956, [924]); (957, [925]); (958, [926]); (959, [927]);
   (960, [928]); (961, [929]); (962, [931]); (963, [931]); (964, [932]);
   (965, [933]); (966, [934]); (967, [935]); (968, [936]); (969, [937]);
   (970, [938]); (971, [939]); (972, [908]); (973, [910]); (974, [911]);
   (976, [914]); (977, [920]); (981, [934]); (982, [928]); (983, [975]);
   (985, [984]); (987, [986]); (989, [988]); (991, [990]); (993, [992]);
   (995, [994]); (997, [996]); (999, [998]); (1001, [1000]); (1003, [1002]);
   (1005, [1004]); (1007, [1006]); (1008, [922]); (1009, [929]); (1010, [1017]);
   (1011, [895]); (1013, [917]); (1016, [1015]); (1019, [1018]); (1072, [1040]);
   (1073, [1041]); (1074, [1042]); (1075, [1043]); (1076, [1044]); (1077, [1045]);
   (1078, [1046]); (1079, [1047]); (1080, [1048]); (1081, [1049]); (1082, [1050]);
   (1083, [1051]); (1084, [1052]); (1085, [1053]); (1086, [1054]); (1087, [1055]);
   (1088, [1056]); (1089, [1057]); (1090, [1058]); (1091, [1059]); (1092, [1060]);
   (1093, [1061]); (1094, [1062]); (1095, [1063]); (1096, [1064]); (1097, [1065]);
   (1098, [1066]); (1099, [1067]); (1100, [1068]); (1101, [1069]); (1102, [1070]);
   (1103, [1071]); (1104, [1024]); (1105, [1025]); (1106, [1026]); (1107, [1027]);
   (1108, [1028]); (1109, [1029]); (1110, [1030]); (1111, [1031]); (1112, [1032]);
   (1113, [1033]); (1114, [1034]); (1115, [1035]); (1116, [1036]); (1117, [1037]);
   (1118, [1038]); (1119, [1039]); (1121, [1120]); (1123, [1122]); (1125, [1124]);
   (1127, [1126]); (1129, [1128]); (1131, [1130]); (1133, [1132]); (1135, [1134]);
   (1137, [1136]); (1139, [1138]); (1141, [1140]); (1143, [1142]); (1145, [1144]);
   (1147, [1146]); (1149, [1148]); (1151, [1150]); (1153, [1152]); (1163, [1162]);
   (1165, [1164]); (1167, [1166]); (1169, [1168]); (1171, [1170]); (1173, [1172]);
   (1175, [1174]); (1177, [1176]); (1179, [1178]); (1181, [1180]); (1183, [1182]);
   (1185, [1184]); (1187, [1186]); (1189, [1188]); (1191, [1190]); (1193, [1192]);
   (1195, [1194]); (1197, [1196]); (1199, [1198]); (1201, [1200]); (1203, [1202]);
   (1205, [1204]); (1207, [1206]); (1209, [1208]); (1211, [1210]); (1213, [1212]);
   (1215, [1214]); (1218, [1217]); (1220, [1219]); (1222, [1221]); (1224, [1223]);
   (1226, [1225]); (1228, [1227]); (1230, [1229]); (1231, [1216]); (1233, [1232]);
   (1235, [1234]); (1237, [1236]); (1239, [1238]); (1241, [1240]); (1243, [1242]);
   (1245, [1244]); (1247, [1246]); (1249, [1248]); (1251, [1250]); (1253, [1252]);
   (1255, [1254]); (1257, [1256]); (1259, [1258]); (1261, [1260]); (1263, [1262]);
   (1265, [1264]); (1267, [1266]); (1269, [1268]); (1271, [1270]); (1273, [1272]);
   (1275, [1274]); (1277, [1276]); (1279, [1278]); (1281, [1280]); (1283, [1282]);
   (1285, [1284]); (1287, [1286]); (1289, [1288]); (1291, [1290]); (1293, [1292]);
   (1295, [1294]); (1297, [1296]); (1299, [1298]); (1301, [1300]); (1303, [1302]);
   (1305, [1304]); (1307, [1306]); (1309, [1308]); (1311, [1310]); (1313, [1312]);
   (1315, [1314]); (1317, [1316]); (1319, [1318]); (1321, [1320]); (1323, [1322]);
   (1325, [1324]); (1327, [1326]); (1377, [1329]); (1378, [1330]); (1379, [1331]);
   (1380, [1332]); (1381, [1333]); (1382, [1334]); (1383, [1335]); (1384, [1336]);
   (1385, [1337]); (1386, [1338]); (1387, [1339]); (1388, [1340]); (1389, [1341]);
   (1390, [1342]); (1391, [1343]); (1392, [1344]); (1393, [1345]); (1394, [1346]);
   (1395, [1347]); (1396, [1348]); (1397, [1349]); (1398, [1350]); (1399, [1351]);
   (1400, [1352]); (1401, [1353]); (1402, [1354]); (1403, [1355]); (1404, [1356]);
   (1405, [1357]); (1406, [1358]); (1407, [1359]); (1408, [1360]); (1409, [1361]);
   (1410, [1362]); (1411, [1363]); (1412, [1364]); (1413, [1365]); (1414, [1366]);
   (1415, [1333; 1362]); (4304, [7312]); (4305, [7313]); (4306, [7314]); (4307, [7315]);
   (4308, [7316]); (4309, [7317]); (4310, [7318]); (4311, [7319]); (4312, [7320]);
   (4313, [7321]); (4314, [7322]); (4315, [7323]); (4316, [7324]); (4317, [7325]);
   (4318, [7326]); (4319, [7327]); (4320, [7328]); (4321, [7329]); (4322, [7330]);
   (4323, [7331]); (4324, [7332]); (4325, [7333]); (4326, [7334]); (4327, [7335]);
   (4328, [7336]); (4329, [7337]); (4330, [7338]); (4331, [7339]); (4332, [7340]);
   (4333, [7341]); (4334, [7342]); (4335, [7343]); (4336, [7344]); (4337, [7345]);
   (4338, [7346]); (4339, [7347]); (4340, [7348]); (4341, [7349]); (4342, [7350]);
   (4343, [7351]); (4344, [7352]); (4345, [7353]); (4346, [7354]); (4349, [7357]);
   (4350, [7358]); (4351, [7359]); (5112, [5104]); (5113, [5105]); (5114, [5106]);
   (5115, [5107]); (5116, [5108]); (5117, [5109]); (7296, [1042]); (7297, [1044]);
   (7298, [1054]); (7299, [1057]); (7300, [1058]); (7301, [1058]); (7302, [1066]);
   (7303, [1122]); (7304, [42570]); (7545, [42877]); (7549, [11363]); (7566, [42950]);
   (7681, [7680]); (7683, [7682]); (7685, [7684]); (7687, [7686]); (7689, [7688]);
   (7691, [7690]); (7693, [7692]); (7695, [7694]); (7697, [7696]); (7699, [7698]);
   (7701, [7700]); (7703, [7702]); (7705, [7704]); (7707, [7706]); (7709, [7708]);
   (7711, [7710]); (7713, [7712]); (7715, [7714]); (7717, [7716]); (7719, [7718]);
   (7721, [7720]); (7723, [7722]); (7725, [7724]); (7727, [7726]); (7729, [7728]);
   (7731, [7730]); (7733, [7732]); (7735, [7734]); (7737, [7736]); (7739, [7738]);
   (7741, [7740]); (7743, [7742]); (7745, [7744]); (7747, [7746]); (7749, [7748]);
   (7751, [7750]); (7753, [7752]); (7755, [7754]); (7757, [7756]); (7759, [7758]);
   (7761, [7760]); (7763, [7762]); (7765, [7764]); (7767, [7766]); (7769, [7768]);
   (7771, [7770]); (7773, [7772]); (7775, [7774]); (7777, [7776]); (7779, [7778]);
   (7781, [7780]); (7783, [7782]); (7785, [7784]); (7787, [7786]); (7789, [7788]);
   (7791, [7790]); (7793, [7792]); (7795, [7794]); (7797, [7796]); (7799, [7798]);
   (7801, [7800]); (7803, [7802]); (7805, [7804]); (7807, [7806]); (7809, [7808]);
   (7811, [7810]); (7813, [7812]); (7815, [7814]); (7817, [7816]); (7819, [7818]);
   (7821, [7820]); (7823, [7822]); (7825, [7824]); (7827, [7826]); (7829, [7828]);
   (7830, [72; 817]); (7831, [84; 776]); (7832, [87; 778]); (7833, [89; 778]); (7834, [65; 702]);
   (7835, [7776]); (7841, [7840]); (7843, [7842]); (7845, [7844]); (7847, [7846]);
   (7849, [7848]); (7851, [7850]); (7853, [7852]); (7855, [7854]); (7857, [7856]);
   (7859, [7858]); (7861, [7860]); (7863, [7862]); (7865, [7864]); (7867, [7866]);
   (7869, [7868]); (7871, [7870]); (7873, [7872]); (7875, [7874]); (7877, [7876]);
   (7879, [7878]); (7881, [7880]); (7883, [7882]); (7885, [7884]); (7887, [7886]);
   (7889, [7888]); (7891, [7890]); (7893, [7892]); (7895, [7894]); (7897, [7896]);
   (7899, [7898]); (7901, [7900]); (7903, [7902]); (7905, [7904]); (7907, [7906]);
   (7909, [7908]); (7911, [7910]); (7913, [7912]); (7915, [7914]); (7917, [7916]);
   (7919, [7918]); (7921, [7920]); (7923, [7922]); (7925, [7924]); (7927, [7926]);
   (7929, [7928]); (7931, [7930]); (7933, [7932]); (7935, [7934]); (7936, [7944]);
   (7937, [7945]); (7938, [7946]); (7939, [7947]); (7940, [7948]); (7941, [7949]);
   (7942, [7950]); (7943, [7951]); (7952, [7960]); (7953, [7961]); (7954, [7962]);
   (7955, [7963]); (7956, [7964]); (7957, [7965]); (7968, [7976]); (7969, [7977]);
   (7970, [7978]); (7971, [7979]); (7972, [7980]); (7973, [7981]); (7974, [7982]);
   (7975, [7983]); (7984, [7992]); (7985, [7993]); (7986, [7994]); (7987, [7995]);
   (7988, [7996]); (7989, [7997]); (7990, [7998]); (7991, [7999]); (8000, [8008]);
   (8001, [8009]); (8002, [8010]); (8003, [8011]); (8004, [8012]); (8005, [8013]);
   (8016, [933; 787]); (8017, [8025]); (8018, [933; 787; 768]); (8019, [8027]); (8020, [933; 787; 769]);
   (8021, [8029]); (8022, [933; 787; 834]); (8023, [8031]); (8032, [8040]); (8033, [8041]);
   (8034, [8042]); (8035, [8043]); (8036, [8044]); (8037, [8045]); (8038, [8046]);
   (8039, [8047]); (8048, [8122]); (8049, [8123]); (8050, [8136]); (8051, [8137]);
   (8052, [8138]); (8053, [8139]); (8054, [8154]); (8055, [8155]); (8056, [8184]);
   (8057, [8185]); (8058, [8170]); (8059, [8171]); (8060, [8186]); (8061, [8187]);
   (8064, [7944; 921]); (8065, [7945; 921]); (8066, [7946; 921]); (8067, [7947; 921]); (8068, [7948; 921]);
   (8069, [7949; 921]); (8070, [7950; 921]); (8071, [7951; 921]); (8072, [7944; 921]); (8073, [7945; 921]);
   (8074, [7946; 921]); (8075, [7947; 921]); (8076, [7948; 921]); (8077, [7949; 921]); (8078, [7950; 921]);
   (8079, [7951; 921]); (8080, [7976; 921]); (8081, [7977; 921]); (8082, [7978; 921]); (8083, [7979; 921]);
   (8084, [7980; 921]); (8085, [7981; 921]); (8086, [7982; 921]); (8087, [7983; 921]); (8088, [7976; 921]);
   (8089, [7977; 921]); (8090, [7978; 921]); (8091, [7979; 921]); (8092, [7980; 921]); (8093, [7981; 921]);
   (8094, [7982; 921]); (8095, [7983; 921]); (8096, [8040; 921]); (8097, [8041; 921]); (8098, [8042; 921]);
   (8099, [8043; 921]); (8100, [8044; 921]); (8101, [8045; 921]); (8102, [8046; 921]); (8103, [8047; 921]);
   (8104, [8040; 921]); (8105, [8041; 921]); (8106, [8042; 921]); (8107, [8043; 921]); (8108, [8044; 921]);
   (8109, [8045; 921]); (8110, [8046; 921]); (8111, [8047; 921]); (8112, [8120]); (8113, [8121]);
   (8114, [8122; 921]); (8115, [913; 921]); (8116, [902; 921]); (8118, [913; 834]); (8119, [913; 834; 921]);
   (8124, [913; 921]); (8126, [921]); (8130, [8138; 921]); (8131, [919; 921]); (8132, [905; 921]);
   (8134, [919; 834]); (8135, [919; 834; 921]); (8140, [919; 921]); (8144, [8152]); (8145, [8153]);
   (8146, [921; 776; 768]); (8147, [921; 776; 769]); (8150, [921; 834]); (8151, [921; 776; 834]); (8160, [8168]);
   (8161, [8169]); (8162, [933; 776; 768]); (8163, [933; 776; 769]); (8164, [929; 787]); (8165, [8172]);
   (8166, [933; 834]); (8167, [933; 776; 834]); (8178, [8186; 921]); (8179, [937; 921]); (8180, [911; 921]);
   (8182, [937; 834]); (8183, [937; 834; 921]); (8188, [937; 921]); (8526, [8498]); (8560, [8544]);
   (8561, [8545]); (8562, [8546]); (8563, [8547]); (8564, [8548]); (8565, [8549]);
   (8566, [8550]); (8567, [8551]); (8568, [8552]); (8569, [8553]); (8570, [8554]);
   (8571, [8555]); (8572, [8556]); (8573, [8557]); (8574, [8558]); (8575, [8559]);
   (8580, [8579]); (9424, [9398]); (9425, [9399]); (9426, [9400]); (9427, [9401]);
   (9428, [9402]); (9429, [9403]); (9430, [9404]); (9431, [9405]); (9432, [9406]);
   (9433, [9407]); (9434, [9408]); (9435, [9409]); (9436, [9410]); (9437, [9411]);
   (9438, [9412]); (9439, [9413]); (9440, [9414]); (9441, [9415]); (9442, [9416]);
   (9443, [9417]); (9444, [9418]); (9445, [9419]); (9446, [9420]); (9447, [9421]);
   (9448, [9422]); (9449, [9423]); (11312, [11264]); (11313, [11265]); (11314, [11266]);
   (11315, [11267]); (11316, [11268]); (11317, [11269]); (11318, [11270]); (11319, [11271]);
   (11320, [11272]); (11321, [11273]); (11322, [11274]); (11323, [11275]); (11324, [11276]);
   (11325, [11277]); (11326, [11278]); (11327, [11279]); (11328, [11280]); (11329, [11281]);
   (11330, [11282]); (11331, [11283]); (11332, [11284]); (11333, [11285]); (11334, [11286]);
   (11335, [11287]); (11336, [11288]); (11337, [11289]); (11338, [11290]); (11339, [11291]);
   (11340, [11292]); (11341, [11293]); (11342, [11294]); (11343, [11295]); (11344, [11296]);
   (11345, [11297]); (11346, [11298]); (11347, [11299]); (11348, [11300]); (11349, [11301]);
   (11350, [11302]); (11351, [11303]); (11352, [11304]); (11353, [11305]); (11354, [11306]);
   (11355, [11307]); (11356, [11308]); (11357, [11309]); (11358, [11310]); (11359, [11311]);
   (11361, [11360]); (11365, [570]); (11366, [574]); (11368, [11367]); (11370, [11369]);
   (11372, [11371]); (11379, [11378]); (11382, [11381]); (11393, [11392]); (11395, [11394]);
   (11397, [11396]); (11399, [11398]); (11401, [11400]); (11403, [11402]); (11405, [11404]);
   (11407, [11406]); (11409, [11408]); (11411, [11410]); (11413, [11412]); (11415, [11414]);
   (11417, [11416]); (11419, [11418]); (11421, [11420]); (11423, [11422]); (11425, [11424]);
   (11427, [11426]); (11429, [11428]); (11431, [11430]); (11433, [11432]); (11435, [11434]);
   (11437, [11436]); (11439, [11438]); (11441, [11440]); (11443, [11442]); (11445, [11444]);
   (11447, [11446]); (11449, [11448]); (11451, [11450]); (11453, [11452]); (11455, [11454]);
   (11457, [11456]); (11459, [11458]); (11461, [11460]); (11463, [11462]); (11465, [11464]);
   (11467, [11466]); (11469, [11468]); (11471, [11470]); (11473, [11472]); (11475, [11474]);
   (11477, [11476]); (11479, [11478]); (11481, [11480]); (11483, [11482]); (11485, [11484]);
   (11487, [11486]); (11489, [11488]); (11491, [11490]); (11500, [11499]); (11502, [11501]);
   (11507, [11506]); (11520, [4256]); (11521, [4257]); (11522, [4258]); (11523, [4259]);
   (11524, [4260]); (11525, [4261]); (11526, [4262]); (11527, [4263]); (11528, [4264]);
   (11529, [4265]); (11530, [4266]); (11531, [4267]); (11532, [4268]); (11533, [4269]);
   (11534, [4270]); (11535, [4271]); (11536, [4272]); (11537, [4273]); (11538, [4274]);
   (11539, [4275]); (11540, [4276]); (11541, [4277]); (11542, [4278]); (11543, [4279]);
   (11544, [4280]); (11545, [4281]); (11546, [4282]); (11547, [4283]); (11548, [4284]);
   (11549, [4285]); (11550, [4286]); (11551, [4287]); (11552, [4288]); (11553, [4289]);
   (11554, [4290]); (11555, [4291]); (11556, [4292]); (11557, [4293]); (11559, [4295]);
   (11565, [4301]); (42561, [42560]); (42563, [42562]); (42565, [42564]); (42567, [42566]);
   (42569, [42568]); (42571, [42570]); (42573, [42572]); (42575, [42574]); (42577, [42576]);
   (42579, [42578]); (42581, [42580]); (42583, [42582]); (42585, [42584]); (42587, [42586]);
   (42589, [42588]); (42591, [42590]); (42593, [42592]); (42595, [42594]); (42597, [42596]);
   (42599, [42598]); (42601, [42600]); (42603, [42602]); (42605, [42604]); (42625, [42624]);
   (42627, [42626]); (42629, [42628]); (42631, [42630]); (42633, [42632]); (42635, [42634]);
   (42637, [42636]); (42639, [42638]); (42641, [42640]); (42643, [42642]); (42645, [42644]);
   (42647, [42646]); (42649, [42648]); (42651, [42650]); (42787, [42786]); (42789, [42788]);
   (42791, [42790]); (42793, [42792]); (42795, [42794]); (42797, [42796]); (42799, [42798]);
   (42803, [42802]); (42805, [42804]); (42807, [42806]); (42809, [42808]); (42811, [42810]);
   (42813, [42812]); (42815, [42814]); (42817, [42816]); (42819, [42818]); (42821, [42820]);
   (42823, [42822]); (42825, [42824]); (42827, [42826]); (42829, [42828]); (42831, [42830]);
   (42833, [42832]); (42835, [42834]); (42837, [42836]); (42839, [42838]); (42841, [42840]);
   (42843, [42842]); (42845, [42844]); (42847, [42846]); (42849, [42848]); (42851, [42850]);
   (42853, [42852]); (42855, [42854]); (42857, [42856]); (42859, [42858]); (42861, [42860]);
   (42863, [42862]); (42874, [42873]); (42876, [42875]); (42879, [42878]); (42881, [42880]);
   (42883, [42882]); (42885, [42884]); (42887, [42886]); (42892, [42891]); (42897, [42896]);
   (42899, [42898]); (42900, [42948]); (42903, [42902]); (42905, [42904]); (42907, [42906]);
   (42909, [42908]); (42911, [42910]); (42913, [42912]); (42915, [42914]); (42917, [42916]);
   (42919, [42918]); (42921, [42920]); (42933, [42932]); (42935, [42934]); (42937, [42936]);
   (42939, [42938]); (42941, [42940]); (42943, [42942]); (42945, [42944]); (42947, [42946]);
   (42952, [42951]); (42954, [42953]); (42961, [42960]); (42967, [42966]); (42969, [42968]);
   (42998, [42997]); (43859, [42931]); (43888, [5024]); (43889, [5025]); (43890, [5026]);
   (43891, [5027]); (43892, [5028]); (43893, [5029]); (43894, [5030]); (43895, [5031]);
   (43896, [5032]); (43897, [5033]); (43898, [5034]); (43899, [5035]); (43900, [5036]);
   (43901, [5037]); (43902, [5038]); (43903, [5039]); (43904, [5040]); (43905, [5041]);
   (43906, [5042]); (43907, [5043]); (43908, [5044]); (43909, [5045]); (43910, [5046]);
   (43911, [5047]); (43912, [5048]); (43913, [5049]); (43914, [5050]); (43915, [5051]);
   (43916, [5052]); (43917, [5053]); (43918, [5054]); (43919, [5055]); (43920, [5056]);
   (43921, [5057]); (43922, [5058]); (43923, [5059]); (43924, [5060]); (43925, [5061]);
   (43926, [5062]); (43927, [5063]); (43928, [5064]); (43929, [5065]); (43930, [5066]);
   (43931, [5067]); (43932, [5068]); (43933, [5069]); (43934, [5070]); (43935, [5071]);
   (43936, [5072]); (43937, [5073]); (43938, [5074]); (43939, [5075]); (43940, [5076]);
   (43941, [5077]); (43942, [5078]); (43943, [5079]); (43944, [5080]); (43945, [5081]);
   (43946, [5082]); (43947, [5083]); (43948, [5084]); (43949, [5085]); (43950, [5086]);
   (43951, [5087]); (43952, [5088]); (43953, [5089]); (43954, [5090]); (43955, [5091]);
   (43956, [5092]); (43957, [5093]); (43958, [5094]); (43959, [5095]); (43960, [5096]);
   (43961, [5097]); (43962, [5098]); (43963, [5099]); (43964, [5100]); (43965, [5101]);
   (43966, [5102]); (43967, [5103]); (64256, [70; 70]); (64257, [70; 73]); (64258, [70; 76]);
   (64259, [70; 70; 73]); (64260, [70; 70; 76]); (64261, [83; 84]); (64262, [83; 84]); (64275, [1348; 1350]);
   (64276, [1348; 1333]); (64277, [1348; 1339]); (64278, [1358; 1350]); (64279, [1348; 1341]); (65345, [65313]);
   (65346, [65314]); (65347, [65315]); (65348, [65316]); (65349, [65317]); (65350, [65318]);
   (65351, [65319]); (65352, [65320]); (65353, [65321]); (65354, [65322]); (65355, [65323]);
   (65356, [65324]); (65357, [65325]); (65358, [65326]); (65359, [65327]); (65360, [65328]);
   (65361, [65329]); (65362, [65330]); (65363, [65331]); (65364, [65332]); (65365, [65333]);
   (65366, [65334]); (65367, [65335]); (65368, [65336]); (65369, [65337]); (65370, [65338]);
   (66600, [66560]); (66601, [66561]); (66602, [66562]); (66603, [66563]); (66604, [66564]);
   (66605, [66565]); (66606, [66566]); (66607, [66567]); (66608, [66568]); (66609, [66569]);
   (66610, [66570]); (66611, [66571]); (66612, [66572]); (66613, [66573]); (66614, [66574]);
   (66615, [66575]); (66616, [66576]); (66617, [66577]); (66618, [66578]); (66619, [66579]);
   (66620, [66580]); (66621, [66581]); (66622, [66582]); (66623, [66583]); (66624, [66584]);
   (66625, [66585]); (66626, [66586]); (66627, [66587]); (66628, [66588]); (66629, [66589]);
   (66630, [66590]); (66631, [66591]); (66632, [66592]); (66633, [66593]); (66634, [66594]);
   (66635, [66595]); (66636, [66596]); (66637, [66597]); (66638, [66598]); (66639, [66599]);
   (66776, [66736]); (66777, [66737]); (66778, [66738]); (66779, [66739]); (66780, [66740]);
   (66781, [66741]); (66782, [66742]); (66783, [66743]); (66784, [66744]); (66785, [66745]);
   (66786, [66746]); (66787, [66747]); (66788, [66748]); (66789, [66749]); (66790, [66750]);
   (66791, [66751]); (66792, [66752]); (66793, [66753]); (66794, [66754]); (66795, [66755]);
   (66796, [66756]); (66797, [66757]); (66798, [66758]); (66799, [66759]); (66800, [66760]);
   (66801, [66761]); (66802, [66762]); (66803, [66763]); (66804, [66764]); (66805, [66765]);
   (66806, [66766]); (66807, [66767]); (66808, [66768]); (66809, [66769]); (66810, [66770]);
   (66811, [66771]); (66967, [66928]); (66968, [66929]); (66969, [66930]); (66970, [66931]);
   (66971, [66932]); (66972, [66933]); (66973, [66934]); (66974, [66935]); (66975, [66936]);
   (66976, [66937]); (66977, [66938]); (66979, [66940]); (66980, [66941]); (66981, [66942]);
   (66982, [66943]); (66983, [66944]); (66984, [66945]); (66985, [66946]); (66986, [66947]);
   (66987, [66948]); (66988, [66949]); (66989, [66950]); (66990, [66951]); (66991, [66952]);
   (66992, [66953]); (66993, [66954]); (66995, [66956]); (66996, [66957]); (66997, [66958]);
   (66998, [66959]); (66999, [66960]); (67000, [66961]); (67001, [66962]); (67003, [66964]);
   (67004, [66965]); (68800, [68736]); (68801, [68737]); (68802, [68738]); (68803, [68739]);
   (68804, [68740]); (68805, [68741]); (68806, [68742]); (68807, [68743]); (68808, [68744]);
   (68809, [68745]); (68810, [68746]); (68811, [68747]); (68812, [68748]); (68813, [68749]);
   (68814, [68750]); (68815, [68751]); (68816, [68752]); (68817, [68753]); (68818, [68754]);
   (68819, [68755]); (68820, [68756]); (68821, [68757]); (68822, [68758]); (68823, [68759]);
   (68824, [68760]); (68825, [68761]); (68826, [68762]); (68827, [68763]); (68828, [68764]);
   (68829, [68765]); (68830, [68766]); (68831, [68767]); (68832, [68768]); (68833, [68769]);
   (68834, [68770]); (68835, [68771]); (68836, [68772]); (68837, [68773]); (68838, [68774]);
   (68839, [68775]); (68840, [68776]); (68841, [68777]); (68842, [68778]); (68843, [68779]);
   (68844, [68780]); (68845, [68781]); (68846, [68782]); (68847, [68783]); (68848, [68784]);
   (68849, [68785]); (68850, [68786]); (71872, [71840]); (71873, [71841]); (71874, [71842]);
   (71875, [71843]); (71876, [71844]); (71877, [71845]); (71878, [71846]); (71879, [71847]);
   (71880, [71848]); (71881, [71849]); (71882, [71850]); (71883, [71851]); (71884, [71852]);
   (71885, [71853]); (71886, [71854]); (71887, [71855]); (71888, [71856]); (71889, [71857]);
   (71890, [71858]); (71891, [71859]); (71892, [71860]); (71893, [71861]); (71894, [71862]);
   (71895, [71863]); (71896, [71864]); (71897, [71865]); (71898, [71866]); (71899, [71867]);
   (71900, [71868]); (71901, [71869]); (71902, [71870]); (71903, [71871]); (93792, [93760]);
   (93793, [93761]); (93794, [93762]); (93795, [93763]); (93796, [93764]); (93797, [93765]);
   (93798, [93766]); (93799, [93767]); (93800, [93768]); (93801, [93769]); (93802, [93770]);
   (93803, [93771]); (93804, [93772]); (93805, [93773]); (93806, [93774]); (93807, [93775]);
   (93808, [93776]); (93809, [93777]); (93810, [93778]); (93811, [93779]); (93812, [93780]);
   (93813, [93781]); (93814, [93782]); (93815, [93783]); (93816, [93784]); (93817, [93785]);
   (93818, [93786]); (93819, [93787]); (93820, [93788]); (93821, [93789]); (93822, [93790]);
   (93823, [93791]); (125218, [125184]); (125219, [125185]); (125220, [125186]); (125221, [125187]);
   (125222, [125188]); (125223, [125189]); (125224, [125190]); (125225, [125191]); (125226, [125192]);
   (125227, [125193]); (125228, [125194]); (125229, [125195]); (125230, [125196]); (125231, [125197]);
   (125232, [125198]); (125233, [125199]); (125234, [125200]); (125235, [125201]); (125236, [125202]);
   (125237, [125203]); (125238, [125204]); (125239, [125205]); (125240, [125206]); (125241, [125207]);
   (125242, [125208]); (125243, [125209]); (125244, [125210]); (125245, [125211]); (125246, [125212]);
   (125247, [125213]); (125248, [125214]); (125249, [125215]); (125250, [125216]); (125251, [125217])
  ].

(** [c] lies in one of the ranges. *)
Definition in_ranges (rs : list (Z * Z)) (c : Z) : bool :=
  existsb (fun r => (fst r <=? c) && (c <=? snd r)) rs.

(** [str.isspace] on one character. *)
Definition isspace (c : Z) : bool := in_ranges space_ranges c.

(** The value of a decimal digit ([unicodedata.decimal]); every range of
    [decimal_ranges] starts at a digit zero. *)
Fixpoint decimal_in (rs : list (Z * Z)) (c : Z) : option Z :=
  match rs with
  | [] => None
  | r :: rest =>
      if (fst r <=? c) && (c <=? snd r) then Some ((c - fst r) mod 10)
      else decimal_in rest c
  end.

Definition decimal (c : Z) : option Z := decimal_in decimal_ranges c.

(** [str.isdecimal] on one character; also the [\d] of a [str] pattern. *)
Definition isdecimal (c : Z) : bool :=
  match decimal c with Some _ => true | None => false end.

(** [str.isalnum] on one character. *)
Definition isalnum_char (c : Z) : bool := in_ranges alnum_ranges c.

(** [str.upper] on one character: one to three characters. *)
Definition upper_char (c : Z) : pystr :=
  match find (fun e => fst e =? c) upper_table with
  | Some e => snd e
  | None => [c]
  end.

Arguments isspace : simpl never.
Arguments decimal : simpl never.
Arguments isdecimal : simpl never.
Arguments isalnum_char : simpl never.
Arguments upper_char : simpl never.

(** The ASCII digits 0 to 9, and the ASCII letters a to z. *)
Definition is_ascii_digit (c : Z) : bool := (48 <=? c) && (c <=? 57).
Definition islower (c : Z) : bool := (97 <=? c) && (c <=? 122).

(** *** Strings *)

Definition all_chars (p : Z -> bool) (s : pystr) : bool := forallb p s.

(** [len(s)] *)
Definition len (s : pystr) : Z := Z.of_nat (length s).

(** [s.upper()] *)
Definition upper (s : pystr) : pystr := flat_map upper_char s.

(** [s.isalnum()]: every character alphanumeric, and at least one. *)
Definition isalnum (s : pystr) : bool :=
  match s with
  | [] => false
  | _ => all_chars isalnum_char s
  end.

(** [s.startswith(p)] *)
Fixpoint startswith (s p : pystr) {struct p} : bool :=
  match p, s with
  | [], _ => true
  | _ :: _, [] => false
  | a :: p', b :: s' => (a =? b) && startswith s' p'
  end.

(** [s.lstrip()], [s.rstrip()], [s.strip()] *)
Fixpoint lstrip (s : pystr) : pystr :=
  match s with
  | [] => []
  | c :: r => if isspace c then lstrip r else s
  end.

Fixpoint rstrip (s : pystr) : pystr :=
  match s with
  | [] => []
  | c :: r =>
      match rstrip r with
      | [] => if isspace c then [] else [c]
      | r' => c :: r'
      end
  end.

Definition strip (s : pystr) : pystr := rstrip (lstrip s).

(** [s.split()] with no separator: the maximal runs of characters that are
    not whitespace, in order.  [tok] is the run being read. *)
Fixpoint split_from (tok : pystr) (s : pystr) : list pystr :=
  match s with
  | [] =>
      match tok with [] => [] | _ => [tok] end
  | c :: r =>
      if isspace c then
        match tok with
        | [] => split_from [] r
        | _ => tok :: split_from [] r
        end
      else split_from (tok ++ [c]) r
  end.

Definition split (s : pystr) : list pystr := split_from [] s.

(** [p in s] for two strings *)
Fixpoint contains (s p : pystr) : bool :=
  startswith s p
  || match s with
     | [] => false
     | _ :: r => contains r p
     end.

(** [s[a:a+n]]; [s[:n]] is [take n s]. *)
Definition substring (a n : nat) (s : pystr) : pystr := take n (drop a s).

(** [str(n)] for an int, and zero padding as done by [%0wd]. *)
Definition str_of_int (n : Z) : pystr := lit (pretty n).

Definition zfill (w : nat) (n : Z) : pystr :=
  let d := str_of_int n in
  replicate (w - length d) 48 ++ d.

(** [zfill w n] has [w] characters, all of them ASCII digits. *)
Definition zfill_ok (w : nat) (n : Z) : bool :=
  (length (zfill w n) =? w)%nat && all_chars is_ascii_digit (zfill w n).

(** *** [int(s)] for a string, base 10

    The text is first brought to ASCII: a character below 127 stays, any
    other whitespace character becomes a space, any other decimal digit
    becomes the ASCII digit of its value, and anything else becomes a
    question mark, which no integer holds.  Then leading and trailing
    whitespace of C ([TAB], [LF], [VT], [FF], [CR], space) is skipped, one
    sign is allowed, and the rest must be decimal digits in which single
    underscores may separate digits.  CPython from 3.11 on refuses more
    than [int_max_str_digits] digits
    ([sys.int_info.default_max_str_digits]).  Anything else raises
    [ValueError], here [None]. *)

Definition to_ascii (c : Z) : Z :=
  if c <? 127 then c
  else if isspace c then 32
  else match decimal c with
       | Some d => 48 + d
       | None => 63
       end.

Definition c_isspace (c : Z) : bool :=
  ((9 <=? c) && (c <=? 13)) || (c =? 32).

Definition int_max_str_digits : nat := 4300.

Fixpoint skip_space (s : pystr) : pystr :=
  match s with
  | [] => []
  | c :: r => if c_isspace c then skip_space r else s
  end.

Fixpoint int_digits (acc : Z) (seen : nat) (s : pystr) : option (Z * nat) :=
  match s with
  | [] => Some (acc, seen)
  | c :: r =>
      if is_ascii_digit c then int_digits (10 * acc + (c - 48)) (S seen) r
      else if c =? 95 then
        match r with
        | d :: r' =>
            if is_ascii_digit d
            then int_digits (10 * acc + (d - 48)) (S seen) r'
            else None
        | [] => None
        end
      else if all_chars c_isspace s then Some (acc, seen)
      else None
  end.

Definition int_unsigned (s : pystr) : option Z :=
  match s with
  | c :: r =>
      if is_ascii_digit c then
        match int_digits (c - 48) 1 r with
        | Some (n, seen) =>
            if (int_max_str_digits <? seen)%nat then None else Some n
        | None => None
        end
      else None
  | [] => None
  end.

Definition int_of_str (s : pystr) : option Z :=
  match skip_space (map to_ascii s) with
  | 45 :: r => option_map Z.opp (int_unsigned r)
  | 43 :: r => int_unsigned r
  | t => int_unsigned t
  end.

(** *** JSON values, as [json.loads] returns them

    A float is kept as the dyadic rational it denotes, [m * 2^e], or as
    one of the three special values that Python's decoder also accepts. *)

Inductive pyfloat :=
| Finite (m e : Z)
| Infinity (negative : bool)
| NaN.

Inductive json :=
| JNull
| JBool (b : bool)
| JInt (n : Z)
| JFloat (x : pyfloat)
| JStr (s : pystr)
| JArr (l : list json)
| JObj (m : gmap pystr json).

(** Truth value of a decoded JSON value ([if not data]). *)
Definition truthy (j : json) : bool :=
  match j with
  | JNull => false
  | JBool b => b
  | JInt n => negb (n =? 0)
  | JFloat (Finite m _) => negb (m =? 0)
  | JFloat _ => true
  | JStr s => match s with [] => false | _ => true end
  | JArr l => match l with [] => false | _ => true end
  | JObj m => negb (bool_decide (m = ∅))
  end.

(** The exceptions that [int(x)] and the handlers raise.  A [ValueError]
    carries its text when the program raises it, and [None] when the
    interpreter does. *)
Inductive exn :=
| ValueError (message : option pystr)
| TypeError
| OverflowError
| AttributeError.

Inductive raised (A : Type) :=
| Return (a : A)
| Raise (e : exn).
Arguments Return {A} a.
Arguments Raise {A} e.

(** [int(x)] of a float truncates towards zero. *)
Definition trunc (m e : Z) : Z :=
  if 0 <=? e then m * 2 ^ e else Z.quot m (2 ^ (- e)).

(** [int(x)] for a decoded JSON value. *)
Definition int_of (j : json) : raised Z :=
  match j with
  | JInt n => Return n
  | JBool b => Return (if b then 1 else 0)
  | JFloat (Finite m e) => Return (trunc m e)
  | JFloat (Infinity _) => Raise OverflowError
  | JFloat NaN => Raise (ValueError None)
  | JStr s =>
      match int_of_str s with
      | Some n => Return n
      | None => Raise (ValueError None)
      end
  | JNull | JArr _ | JObj _ => Raise TypeError
  end.

(** *** Checks on text *)

(** No character of [s] is whitespace. *)
Definition nospace (s : pystr) : bool :=
  all_chars (fun c => negb (isspace c)) s.

(** [str(n)] is a token that [int] reads back as [n]. *)
Definition amount_text_ok (n : Z) : bool :=
  match int_of_str (str_of_int n) with
  | Some k => k =? n
  | None => false
  end
  && nospace (str_of_int n)
  && match str_of_int n with [] => false | _ => true end.

End Py.

(** ** messenger_server.py: the messenger webhook *)

Module Messenger.
Import Py.

(** The dictionary that [validate_message] returns on success. *)
Record reload_request := {
  msisdn : pystr;
  promo : pystr;
  amount : Z;
  network : pystr
}.

(** [validate_message] returns [(parsed, None)] or [(None, error)]. *)
Inductive validation :=
| Valid (parsed : reload_request)
| Invalid (error : pystr).

Definition LF : pystr := [10].

(** [PHONE_PATTERN.match(s)] for [PHONE_PATTERN = re.compile(r'^09\d{9}$')]:
    [09], nine decimal digits, then the end of the string or one final
    newline. *)
Definition PHONE_PATTERN_match (s : pystr) : bool :=
  match s with
  | c0 :: c1 :: r =>
      (c0 =? 48) && (c1 =? 57)
      && (length (take 9 r) =? 9)%nat
      && all_chars isdecimal (take 9 r)
      && (bool_decide (drop 9 r = []) || bool_decide (drop 9 r = LF))
  | _ => false
  end.

Definition format_error : pystr :=
  lit "Invalid format. Expected: MSISDN PROMO AMOUNT (e.g., 09171234567 GIGA99 99)".

Definition validate_message (text : json) : validation :=
  match text with
  | JStr s =>
      match s with
      | [] => Invalid (lit "Message text is required")
      | _ =>
        match split (strip s) with
        | [msisdn; promo; amount_str] =>
            if negb (PHONE_PATTERN_match msisdn) then
              Invalid (lit "Invalid phone number format: " ++ msisdn
                       ++ lit ". Must be 09XXXXXXXXX")
            else if negb (isalnum promo) || (20 <? len promo) then
              Invalid (lit "Invalid promo code: " ++ promo)
            else
              match int_of_str amount_str with
              | Some amount =>
                  if (amount <=? 0) || (10000 <? amount) then
                    Invalid (lit "Invalid amount: " ++ str_of_int amount
                             ++ lit ". Must be between 1 and 10000")
                  else
                    Valid {| msisdn := msisdn;
                             promo := upper promo;
                             amount := amount;
                             network := if startswith (upper promo) (lit "G")
                                        then lit "SMART" else lit "GLOBE" |}
              | None =>
                  Invalid (lit "Invalid amount: " ++ amount_str
                           ++ lit ". Must be a number")
              end
        | _ => Invalid format_error
        end
      end
  | _ => Invalid (lit "Message text is required")
  end.

(** The request that the message [09171234567 GIGA99 99] parses to. *)
Definition sample_request : reload_request :=
  {| msisdn := lit "09171234567"; promo := lit "GIGA99"; amount := 99;
     network := lit "SMART" |}.

(** *** Forwarding to the gateway *)

(** The exceptions of the [requests] library that matter to the handler,
    with the classes they belong to. *)
Inductive exception :=
| Timeout | ConnectTimeout | ReadTimeout
| ConnectionError | ProxyError | SSLError
| HTTPError
| JSONDecodeError
| MissingSchema | InvalidSchema | InvalidURL
| TooManyRedirects | ChunkedEncodingError
| OtherException.

Definition is_Timeout (e : exception) : bool :=
  match e with Timeout | ConnectTimeout | ReadTimeout => true | _ => false end.

Definition is_ConnectionError (e : exception) : bool :=
  match e with
  | ConnectionError | ConnectTimeout | ProxyError | SSLError => true
  | _ => false
  end.

Definition is_HTTPError (e : exception) : bool :=
  match e with HTTPError => true | _ => false end.

Definition is_ValueError (e : exception) : bool :=
  match e with
  | JSONDecodeError | MissingSchema | InvalidSchema | InvalidURL => true
  | _ => false
  end.

(** What the gateway sent back: its status code, and its body when the body
    decodes as JSON. *)
Record http_response := {
  status_code : Z;
  decoded : option json
}.

(** What one call of [requests.post] does. *)
Inductive post_result :=
| PostRaises (e : exception)
| PostReturns (response : http_response).

(** The body and status code answered by the webhook. *)
Inductive body :=
| Json (status message : pystr) (gateway : option json)
| Aborted (description : pystr).

Definition reply : Type := body * Z.

Definition error (message : pystr) (code : Z) : reply :=
  (Json (lit "error") message None, code).

Definition internal_error : reply := error (lit "Internal server error") 500.

Record request := {
  X_API_Key : option pystr;
  request_json : option json   (* [None]: [request.json] raises *)
}.

Section Webhook.

(** Configuration read from the environment. *)
Variable API_KEY : pystr.

(** The world: the outcome of the n-th POST, given its payload. *)
Variable gateway : nat -> reload_request -> post_result.

(** The handler runs over the log of payloads posted so far. *)
Definition M (A : Type) : Type := list reload_request -> A * list reload_request.

Definition ret {A} (a : A) : M A := fun sent => (a, sent).

Definition bind {A B} (m : M A) (k : A -> M B) : M B :=
  fun sent => let (a, sent') := m sent in k a sent'.

Notation "x <- m ;; k" := (bind m (fun x => k))
  (at level 100, m at next level, right associativity).

Definition requests_post (payload : reload_request) : M post_result :=
  fun sent => (gateway (length sent) payload, sent ++ [payload]).

(** The body of the inner [try]: [raise_for_status] then [json]. *)
Definition raise_for_status (response : http_response) : bool :=
  (400 <=? status_code response) && (status_code response <? 600).

Definition try_forward (r : post_result) : exception + json :=
  match r with
  | PostRaises e => inl e
  | PostReturns response =>
      if raise_for_status response then inl HTTPError
      else
        match decoded response with
        | Some gateway_response => inr gateway_response
        | None => inl JSONDecodeError
        end
  end.

(** The [except] clauses, in the order of the source.  [response] is bound
    only once [requests.post] has returned. *)
Definition forward_reply (r : post_result) : reply :=
  match try_forward r with
  | inr gateway_response =>
      (Json (lit "success") (lit "Transaction queued") (Some gateway_response),
       200)
  | inl e =>
      if is_Timeout e then error (lit "Gateway timeout") 504
      else if is_ConnectionError e then error (lit "Gateway unavailable") 503
      else if is_HTTPError e then
        match r with
        | PostReturns response =>
            error (lit "Gateway error: " ++ str_of_int (status_code response))
                  502
        | PostRaises _ => internal_error
        end
      else if is_ValueError e then error (lit "Invalid gateway response") 502
      else internal_error
  end.

Definition forward (parsed : reload_request) : M reply :=
  r <- requests_post parsed ;;
  ret (forward_reply r).

Definition messenger_webhook_body (req : request) : M reply :=
  match request_json req with
  | None => ret internal_error
  | Some data =>
      if negb (truthy data) then ret (error (lit "Empty request body") 400)
      else
        match data with
        | JObj m =>
            let message_text := default JNull (m !! lit "message") in
            if negb (truthy message_text) then
              ret (error (lit "Missing 'message' field") 400)
            else
              match validate_message message_text with
              | Invalid e => ret (Json (lit "invalid_format") e None, 400)
              | Valid parsed => forward parsed
              end
        | _ => ret internal_error   (* [data.get] raises *)
        end
  end.

(** [@require_api_key] *)
Definition require_api_key (f : request -> M reply) (req : request) : M reply :=
  if bool_decide (X_API_Key req = Some API_KEY) then f req
  else ret (Aborted (lit "Invalid API key"), 401).

Definition messenger_webhook : request -> M reply :=
  require_api_key messenger_webhook_body.

End Webhook.

(** The body that [requests.post(..., json=parsed)] sends, as the
    [request.json] of the receiving side decodes it. *)
Definition payload_json (parsed : reload_request) : json :=
  JObj (<[lit "msisdn" := JStr (msisdn parsed)]>
          (<[lit "promo" := JStr (promo parsed)]>
             (<[lit "amount" := JInt (amount parsed)]>
                (<[lit "network" := JStr (network parsed)]> ∅)))).

(** The request carries the right key and a JSON object whose message
    validates to [parsed]. *)
Definition accepted (API_KEY : pystr) (req : request)
    (parsed : reload_request) : Prop :=
  X_API_Key req = Some API_KEY
  /\ exists m, request_json req = Some (JObj m)
               /\ validate_message (default JNull (m !! lit "message"))
                  = Valid parsed.

End Messenger.

(** ** The clock: [datetime.now()], [strftime] and [isoformat] *)

Module Datetime.
Import Py.

Record datetime := {
  year : Z; month : Z; day : Z;
  hour : Z; minute : Z; second : Z; microsecond : Z
}.

(** Year within the 400-year era, month and day of the day [doe] of an
    era; eras start on a first of March. *)
Definition civil_of_doe (doe : Z) : Z * Z * Z :=
  let yoe := (doe - doe / 1460 + doe / 36524 - doe / 146096) / 365 in
  let doy := doe - (365 * yoe + yoe / 4 - yoe / 100) in
  let mp := (5 * doy + 2) / 153 in
  let d := doy - (153 * mp + 2) / 5 + 1 in
  let m := if mp <? 10 then mp + 3 else mp - 9 in
  (if m <=? 2 then yoe + 1 else yoe, m, d).

(** The date in the proleptic Gregorian calendar of the day that lies
    [days] days after 1970-01-01. *)
Definition civil_from_days (days : Z) : Z * Z * Z :=
  let z := days + 719468 in
  let era := z / 146097 in
  let '(y, m, d) := civil_of_doe (z - era * 146097) in
  (y + era * 400, m, d).

Definition us_per_second : Z := 1000000.
Definition us_per_day : Z := 86400 * us_per_second.

(** The naive datetime that lies [us] microseconds after
    1970-01-01T00:00:00. *)
Definition of_microseconds (us : Z) : datetime :=
  let '(y, m, d) := civil_from_days (us / us_per_day) in
  let r := us mod us_per_day in
  {| year := y; month := m; day := d;
     hour := r / (3600 * us_per_second);
     minute := (r / (60 * us_per_second)) mod 60;
     second := (r / us_per_second) mod 60;
     microsecond := r mod us_per_second |}.

(** One reading of the system clock: microseconds since the epoch, and the
    offset of the process's time zone from UTC in seconds at that moment. *)
Record clock := {
  utc_us : Z;
  utcoffset : Z
}.

(** [datetime.now()]: the local time, without a time zone. *)
Definition now (c : clock) : datetime :=
  of_microseconds (utc_us c + utcoffset c * us_per_second).

(** The same instant in UTC ([datetime.now(timezone.utc)]). *)
Definition utcnow (c : clock) : datetime :=
  of_microseconds (utc_us c).

(** [d.strftime('%Y%m%d')] *)
Definition strftime_Ymd (d : datetime) : pystr :=
  zfill 4 (year d) ++ zfill 2 (month d) ++ zfill 2 (day d).

(** [d.isoformat()] *)
Definition isoformat (d : datetime) : pystr :=
  zfill 4 (year d) ++ lit "-" ++ zfill 2 (month d) ++ lit "-"
  ++ zfill 2 (day d)
  ++ lit "T" ++ zfill 2 (hour d) ++ lit ":" ++ zfill 2 (minute d)
  ++ lit ":" ++ zfill 2 (second d)
  ++ (if microsecond d =? 0 then []
      else lit "." ++ zfill 6 (microsecond d)).

(** The local times from 1970-01-01 up to the end of year 9999, the last
    year of [datetime]. *)
Definition in_range (c : clock) : Prop :=
  0 <= utc_us c + utcoffset c * us_per_second < 2932897 * us_per_day.

(** A check of [civil_of_doe] on one day of an era, and on all days below a
    bound. *)
Definition doe_ok (doe : Z) : bool :=
  let '(y, m, d) := civil_of_doe doe in
  (1 <=? m) && (m <=? 12) && (1 <=? d) && (d <=? 31)
  && (0 <=? y) && (y <=? 400)
  && ((146037 <=? doe) || (y <=? 399))
  && ((doe <? 135080) || (370 <=? y)).

Definition check_next (p : Z -> bool) (st : Z * bool) : Z * bool :=
  (fst st + 1, snd st && p (fst st)).

Definition all_below (n : positive) (p : Z -> bool) : bool :=
  snd (Pos.iter (check_next p) (0, true) n).

End Datetime.

(** ** [uuid.uuid4()] and its text *)

Module Uuid.
Import Py.

(** [uuid.UUID(bytes=os.urandom(16), version=4).int]: the random bits with
    the variant and the version set. *)
Definition uuid4 (urandom : Z) : Z :=
  let int := urandom mod 2 ^ 128 in
  let int := Z.land int (Z.lnot (Z.shiftl 0xc000 48)) in
  let int := Z.lor int (Z.shiftl 0x8000 48) in
  let int := Z.land int (Z.lnot (Z.shiftl 0xf000 64)) in
  Z.lor int (Z.shiftl 4 76).

Definition hex_digit (n : Z) : Z :=
  if n <? 10 then 48 + n else 87 + n.

(** ['%0wx' % n] for [0 <= n < 16^w] *)
Fixpoint hex (w : nat) (n : Z) : pystr :=
  match w with
  | O => []
  | S w' => hex w' (n / 16) ++ [hex_digit (n mod 16)]
  end.

(** [str(u)] for the UUID with integer [int] *)
Definition str (int : Z) : pystr :=
  let h := hex 32 int in
  substring 0 8 h ++ lit "-" ++ substring 8 4 h ++ lit "-"
  ++ substring 12 4 h ++ lit "-" ++ substring 16 4 h ++ lit "-"
  ++ substring 20 12 h.

Definition is_upper_hex (c : Z) : bool :=
  is_ascii_digit c || ((65 <=? c) && (c <=? 70)).

Definition is_lower_hex (c : Z) : bool :=
  is_ascii_digit c || ((97 <=? c) && (c <=? 102)).

End Uuid.

(** ** server.py: the Android gateway *)

Module Gateway.
Import Py.

(** What one request reads from outside the program: the clock at the two
    calls of [datetime.now()], the sixteen random bytes behind
    [uuid.uuid4()] as an integer, and Flask's [request.remote_addr]. *)
Record env := {
  clock_reference : Datetime.clock;
  clock_timestamp : Datetime.clock;
  urandom : Z;
  request_remote_addr : option pystr
}.

(** An entry of [transaction_queue]. *)
Record transaction := {
  reference : pystr;
  msisdn : json;
  promo : json;
  amount : Z;
  network : json;
  status : pystr;
  timestamp : pystr;
  remote_addr : option pystr
}.

Definition generate_reference (e : env) : pystr :=
  lit "TXN-" ++ Datetime.strftime_Ymd (Datetime.now (clock_reference e))
  ++ lit "-" ++ upper (take 8 (Uuid.str (Uuid.uuid4 (urandom e)))).

(** The JSON bodies that [/reload] answers.  In [InvalidAmount] the
    exception stands for the message [f"Invalid amount: {str(e)}"]. *)
Inductive reload_body :=
| Error (message : pystr)
| InvalidAmount (e : exn)
| Queued (reference : pystr) (queue_position : Z).

Definition reload_reply : Type := reload_body * Z.

Definition internal_error : reload_reply := (Error (lit "Internal server error"), 500).

Definition required_fields : list pystr := 
  [lit "msisdn"; lit "promo"; lit "amount"].

Definition is_str (field : pystr) (j : json) : bool :=
  match j with JStr s => bool_decide (s = field) | _ => false end.

(** [field in data] *)
Definition has_field (data : json) (field : pystr) : raised bool :=
  match data with
  | JObj m => Return (bool_decide (is_Some (m !! field)))
  | JArr l => Return (existsb (is_str field) l)
  | JStr s => Return (contains s field)
  | _ => Raise TypeError
  end.

(** [[field for field in required_fields if field not in data]] *)
Fixpoint missing_in (data : json) (fields : list pystr) : raised (list pystr) :=
  match fields with
  | [] => Return []
  | field :: rest =>
      match has_field data field with
      | Raise e => Raise e
      | Return present =>
          match missing_in data rest with
          | Raise e => Raise e
          | Return missing =>
              Return (if present then missing else field :: missing)
          end
      end
  end.

(** [', '.join(l)] *)
Fixpoint join (l : list pystr) : pystr :=
  match l with
  | [] => []
  | [s] => s
  | s :: r => s ++ lit ", " ++ join r
  end.

(** [amount = int(data['amount'])], then the test [amount <= 0]. *)
Definition validate_amount (m : gmap pystr json) : raised Z :=
  match int_of (default JNull (m !! (lit "amount"))) with
  | Return amount =>
      if amount <=? 0 then Raise (ValueError (Some (lit "Amount must be positive")))
      else Return amount
  | Raise e => Raise e
  end.

(** The three required fields are present. *)
Definition complete (m : gmap pystr json) : Prop :=
  is_Some (m !! (lit "msisdn")) /\ is_Some (m !! (lit "promo"))
  /\ is_Some (m !! (lit "amount")).

(** The dictionary [transaction] that [reload] builds from the fields [m]
    of the request. *)
Definition new_transaction (e : env) (m : gmap pystr json)
    (reference : pystr) (amount : Z) : transaction :=
  {| reference := reference;
     msisdn := default JNull (m !! (lit "msisdn"));
     promo := default JNull (m !! (lit "promo"));
     amount := amount;
     network := default (JStr (lit "UNKNOWN")) (m !! (lit "network"));
     status := lit "QUEUED";
     timestamp := Datetime.isoformat (Datetime.now (clock_timestamp e));
     remote_addr := request_remote_addr e |}.

Definition reload (e : env) (request_json : option json)
    (transaction_queue : list transaction) : reload_reply * list transaction :=
  match request_json with
  | None => (internal_error, transaction_queue)   (* [request.json] raises *)
  | Some data =>
      if negb (truthy data) then
        ((Error (lit "Empty request body"), 400), transaction_queue)
      else
        match missing_in data required_fields with
        | Raise _ => (internal_error, transaction_queue)
        | Return missing_fields =>
            match missing_fields with
            | _ :: _ =>
                ((Error (lit "Missing required fields: " ++ join missing_fields),
                  400),
                 transaction_queue)
            | [] =>
                match data with
                | JObj m =>
                    match validate_amount m with
                    | Raise (ValueError _ as ex) | Raise (TypeError as ex) =>
                        ((InvalidAmount ex, 400), transaction_queue)
                    | Raise _ => (internal_error, transaction_queue)
                    | Return amount =>
                        let reference := generate_reference e in
                        let transaction :=
                          new_transaction e m reference amount in
                        let transaction_queue :=
                          transaction_queue ++ [transaction] in
                        ((Queued reference
                            (Z.of_nat (length transaction_queue)), 200),
                         transaction_queue)
                    end
                | _ =>
                    (* [data['amount']] raises [TypeError]; the handler of
                       that exception calls [data.get], which raises again *)
                    (internal_error, transaction_queue)
                end
            end
        end
  end.

(** [/health] *)
Definition health_check (transaction_queue : list transaction)
  : pystr * pystr * Z :=
  (lit "healthy", lit "android-gateway",
   Z.of_nat (length transaction_queue)).

(** [/queue]: [transaction_queue[-10:]] *)
Definition get_queue (transaction_queue : list transaction)
  : Z * list transaction :=
  (Z.of_nat (length transaction_queue),
   skipn (length transaction_queue - 10) transaction_queue).

(** [/status/<reference>] *)
Inductive status_body :=
| Found (txn : transaction)
| NotFound (status message : pystr).

Fixpoint get_status (reference0 : pystr) (transaction_queue : list transaction)
  : status_body * Z :=
  match transaction_queue with
  | [] =>
      (NotFound (lit "NOT_FOUND")
          (lit "Transaction " ++ reference0 ++ lit " not found"), 404)
  | txn :: rest =>
      if bool_decide (reference txn = reference0) then (Found txn, 200)
      else get_status reference0 rest
  end.

(** *** The process: requests handled one after the other *)

Inductive op :=
| Reload (e : env) (request_json : option json)
| Health
| GetQueue
| GetStatus (reference : pystr).

Inductive answer :=
| ReloadAnswer (r : reload_reply)
| HealthAnswer (r : pystr * pystr * Z)
| QueueAnswer (r : Z * list transaction)
| StatusAnswer (r : status_body * Z).

Definition step (o : op) (transaction_queue : list transaction)
  : answer * list transaction :=
  match o with
  | Reload e request_json =>
      let (r, q) := reload e request_json transaction_queue in
      (ReloadAnswer r, q)
  | Health => (HealthAnswer (health_check transaction_queue), transaction_queue)
  | GetQueue => (QueueAnswer (get_queue transaction_queue), transaction_queue)
  | GetStatus r =>
      (StatusAnswer (get_status r transaction_queue), transaction_queue)
  end.

Fixpoint run (ops : list op) (transaction_queue : list transaction)
  : list answer * list transaction :=
  match ops with
  | [] => ([], transaction_queue)
  | o :: rest =>
      let (a, q) := step o transaction_queue in
      let (answers, q') := run rest q in
      (a :: answers, q')
  end.

(** A successful intake answers 200. *)
Definition is_success (a : answer) : bool :=
  match a with
  | ReloadAnswer (Queued _ _, 200) => true
  | _ => false
  end.

Definition successes (answers : list answer) : nat :=
  length (filter (fun a => is_success a = true) answers).

(** The queue positions answered by the successful intakes of a run. *)
Fixpoint positions (answers : list answer) : list Z :=
  match answers with
  | [] => []
  | ReloadAnswer (Queued _ pos, 200) :: rest => pos :: positions rest
  | _ :: rest => positions rest
  end.

(** *** Sample inputs *)

(** 2024-01-01 20:00:00 UTC, read in a process whose zone is UTC+8. *)
Definition manila_evening : Datetime.clock :=
  {| Datetime.utc_us := 1704139200000000; Datetime.utcoffset := 28800 |}.

(** Five seconds later. *)
Definition manila_evening_later : Datetime.clock :=
  {| Datetime.utc_us := 1704139205000000; Datetime.utcoffset := 28800 |}.

Definition sample_env : env :=
  {| clock_reference := manila_evening;
     clock_timestamp := manila_evening;
     urandom := 0xabcdef0123456789abcdef0123456789;
     request_remote_addr := Some (lit "192.168.1.10") |}.

(** Other random bytes, with the same first four. *)
Definition sample_env_later : env :=
  {| clock_reference := manila_evening_later;
     clock_timestamp := manila_evening_later;
     urandom := 0xabcdef01ffffffffffffffffffffffff;
     request_remote_addr := Some (lit "192.168.1.10") |}.

Definition fields (msisdn promo : pystr) (amount : json) : gmap pystr json :=
  <[(lit "msisdn") := JStr msisdn]>
    (<[(lit "promo") := JStr promo]> (<[(lit "amount") := amount]> ∅)).

End Gateway.

(** * Properties *)

(** ** Facts about the string primitives *)

Module StringFacts.
Import Py.

Lemma append_assoc (a b c : pystr) : (a ++ b) ++ c = a ++ (b ++ c).
Proof. symmetry. apply app_assoc. Qed.

Lemma append_nil_r (a : pystr) : a ++ [] = a.
Proof. apply app_nil_r. Qed.

Lemma length_append (a b : pystr) :
  length (a ++ b) = (length a + length b)%nat.
Proof. apply length_app. Qed.

(** Two strings that are equal end in the same character. *)
Lemma append_snoc_inj (a b : pystr) (x y : Z) :
  a ++ [x] = b ++ [y] -> a = b /\ x = y.
Proof. apply app_inj_tail. Qed.

(** Equal concatenations with left parts of equal length have equal parts. *)
Lemma append_inj_length (a b c d : pystr) :
  length a = length c ->
  a ++ b = c ++ d -> a = c /\ b = d.
Proof. apply app_inj_1. Qed.

Lemma all_chars_append (p : Z -> bool) (a b : pystr) :
  all_chars p (a ++ b) = all_chars p a && all_chars p b.
Proof. apply forallb_app. Qed.

Lemma split_from_lstrip (s : pystr) :
  split_from [] (lstrip s) = split_from [] s.
Proof.
  induction s as [|c r IH]; cbn [lstrip split_from]; [reflexivity|].
  destruct (isspace c) eqn:Hc; [exact IH|].
  cbn [split_from]. now rewrite Hc.
Qed.

Lemma split_from_rstrip (s : pystr) :
  forall tok, split_from tok (rstrip s) = split_from tok s.
Proof.
  induction s as [|c r IH]; intros tok; [reflexivity|].
  cbn [rstrip]. destruct (rstrip r) as [|a b] eqn:Hr.
  - destruct (isspace c) eqn:Hc.
    + cbn [split_from]. rewrite Hc, <- (IH []). cbn [split_from].
      now destruct tok.
    + cbn [split_from]. rewrite Hc. now rewrite <- IH.
  - change (split_from tok (c :: a :: b))
      with (if isspace c
            then match tok with
                 | [] => split_from [] (a :: b)
                 | _ => tok :: split_from [] (a :: b)
                 end
            else split_from (tok ++ [c]) (a :: b)).
    rewrite !IH. reflexivity.
Qed.

(** Stripping a string first does not change its tokens. *)
Lemma split_strip (s : pystr) : split (strip s) = split s.
Proof.
  unfold split, strip. now rewrite split_from_rstrip, split_from_lstrip.
Qed.

(** What [upper] does to one character comes from the table, or is the
    character itself. *)
Lemma upper_char_cases (c : Z) :
  (exists e, In e upper_table /\ fst e = c /\ upper_char c = snd e)
  \/ upper_char c = [c].
Proof.
  unfold upper_char.
  destruct (find (fun e => fst e =? c) upper_table) as [e|] eqn:Hf;
    [|now right].
  apply find_some in Hf as [Hi He]. apply Z.eqb_eq in He.
  left. now exists e.
Qed.

End StringFacts.

(** ** The message parser *)

Module MessengerProofs.
Import Py Messenger StringFacts.

(** What [validate_message] computes once the text has three tokens. *)
Lemma validate_message_three (text msisdn promo amount_str : pystr) :
  split text = [msisdn; promo; amount_str] ->
  validate_message (JStr text) =
    if negb (PHONE_PATTERN_match msisdn) then
      Invalid (lit "Invalid phone number format: " ++ msisdn
               ++ lit ". Must be 09XXXXXXXXX")
    else if negb (isalnum promo) || (20 <? len promo) then
      Invalid (lit "Invalid promo code: " ++ promo)
    else
      match int_of_str amount_str with
      | Some amount =>
          if (amount <=? 0) || (10000 <? amount) then
            Invalid (lit "Invalid amount: " ++ str_of_int amount
                     ++ lit ". Must be between 1 and 10000")
          else
            Valid {| msisdn := msisdn;
                     promo := upper promo;
                     amount := amount;
                     network := if startswith (upper promo) (lit "G")
                                then (lit "SMART") else (lit "GLOBE") |}
      | None =>
          Invalid (lit "Invalid amount: " ++ amount_str ++ lit ". Must be a number")
      end.
Proof.
  intros H. unfold validate_message.
  destruct text as [|c text]; [discriminate H|].
  now rewrite split_strip, H.
Qed.

(** A structured result comes from exactly three tokens. *)
Lemma validate_message_valid (text : pystr) (parsed : reload_request) :
  validate_message (JStr text) = Valid parsed ->
  exists msisdn promo amount_str, split text = [msisdn; promo; amount_str].
Proof.
  unfold validate_message.
  destruct text as [|c0 text]; [discriminate|].
  rewrite split_strip.
  destruct (split (c0 :: text)) as [|a [|b [|c [|d l]]]]; try discriminate.
  intros _. now exists a, b, c.
Qed.

(** The two messages for a bad amount never coincide. *)
Lemma amount_messages_differ (n : Z) (amount_str : pystr) :
  (lit "Invalid amount: ") ++ str_of_int n ++ (lit ". Must be between 1 and 10000")
  <> (lit "Invalid amount: ") ++ amount_str ++ lit ". Must be a number".
Proof.
  intros H. apply (f_equal (@last Z)) in H.
  rewrite !app_assoc, !last_app in H. discriminate H.
Qed.

(** What [upper] gives for a character is not empty, and it starts with
    G for g and G only. *)
Lemma upper_char_G (c : Z) :
  exists h t, upper_char c = h :: t /\ (h = 71 <-> c = 103 \/ c = 71).
Proof.
  assert (T : forallb (fun e => match snd e with
                                | [] => false
                                | h :: _ => negb (h =? 71) || (fst e =? 103)
                                end && negb (fst e =? 71))
                upper_table = true) by (vm_compute; reflexivity).
  destruct (Z.eq_dec c 103) as [->|N].
  - exists 71, []. split; [vm_compute; reflexivity|]. split; auto.
  - destruct (upper_char_cases c) as [(e & Hi & <- & ->) | ->].
    + apply (proj1 (forallb_forall _ _) T) in Hi.
      apply andb_true_iff in Hi as [H1 H2].
      destruct (snd e) as [|h t]; [discriminate|]. exists h, t.
      split; [reflexivity|]. split.
      * intros ->. cbn in H1. apply Z.eqb_eq in H1. now left.
      * intros [E|E]; [contradiction|]. rewrite E in H2. discriminate H2.
    + exists c, []. split; [reflexivity|]. split; [now right|].
      now intros [E|E].
Qed.

(** The first character decides whether the uppercased code starts with G. *)
Lemma startswith_upper_G (promo : pystr) :
  startswith (upper promo) (lit "G") = true
  <-> exists rest, promo = lit "g" ++ rest \/ promo = lit "G" ++ rest.
Proof.
  destruct promo as [|c rest].
  - split; [discriminate | intros [r [H|H]]; discriminate H].
  - unfold upper. cbn [flat_map].
    destruct (upper_char_G c) as (h & t & -> & Hh).
    change (startswith ((h :: t) ++ flat_map upper_char rest) (lit "G"))
      with ((71 =? h) && true).
    rewrite andb_true_r, Z.eqb_eq. split.
    + intros E. symmetry in E. apply Hh in E as [->| ->]; exists rest; auto.
    + intros [r [H|H]]; injection H as -> _; symmetry; apply Hh; auto.
Qed.

(** C4, as amended: a message whose token count is not three never yields
    a structured result; it is answered with the format error, whose text
    shows a canonical example, unless it is the empty string, which is
    answered with "Message text is required". *)
Theorem validate_message_token_count (text : pystr) :
  length (split text) <> 3%nat ->
  (text <> [] -> validate_message (JStr text) = Invalid format_error)
  /\ (text = [] ->
      validate_message (JStr text) = Invalid (lit "Message text is required"))
  /\ (forall parsed, validate_message (JStr text) <> Valid parsed)
  /\ contains format_error (lit "09171234567 GIGA99 99") = true.
Proof.
  intros H. repeat split.
  - intros Hne. unfold validate_message.
    destruct text as [|c0 text]; [contradiction|].
    rewrite split_strip.
    destruct (split (c0 :: text)) as [|a [|b [|c [|d l]]]]; try reflexivity.
    now contradiction H.
  - now intros ->.
  - intros parsed Hv. apply validate_message_valid in Hv as (a & b & c & Hs).
    rewrite Hs in H. now contradiction H.
Qed.

Lemma validate_message_token_count_witness :
  length (split (lit "09171234567 GIGA99")) <> 3%nat
  /\ validate_message (JStr (lit "09171234567 GIGA99")) = Invalid format_error.
Proof.
  split; [vm_compute; lia|].
  apply (validate_message_token_count (lit "09171234567 GIGA99"));
    [vm_compute; lia | discriminate].
Defined.

(** C4 as stated fails on the empty message: it has no token, and the
    answer is not the format error. *)
Lemma validate_message_empty_not_format_error :
  length (split []) <> 3%nat
  /\ validate_message (JStr []) = Invalid (lit "Message text is required")
  /\ validate_message (JStr []) <> Invalid format_error.
Proof. repeat split; [vm_compute; lia | discriminate]. Qed.

(** C5: with three tokens, a valid msisdn and a valid promo code, the
    message is accepted exactly when the amount token parses as an integer
    from 1 to 10000; 1 and 10000 are accepted, 0 and 10001 are not; a token
    that is not a number and a number out of range are rejected with two
    messages that are never the same. *)
Theorem validate_message_amount (text msisdn promo amount_str : pystr) :
  split text = [msisdn; promo; amount_str] ->
  PHONE_PATTERN_match msisdn = true ->
  isalnum promo = true ->
  len promo <= 20 ->
  ((exists parsed, validate_message (JStr text) = Valid parsed)
   <-> (exists n, int_of_str amount_str = Some n /\ 1 <= n <= 10000))
  /\ (int_of_str amount_str = None ->
      validate_message (JStr text) =
        Invalid (lit "Invalid amount: " ++ amount_str ++ lit ". Must be a number"))
  /\ (forall n, int_of_str amount_str = Some n -> n < 1 \/ 10000 < n ->
      validate_message (JStr text) =
        Invalid (lit "Invalid amount: " ++ str_of_int n
                 ++ lit ". Must be between 1 and 10000"))
  /\ (forall n s,
      lit "Invalid amount: " ++ str_of_int n ++ (lit ". Must be between 1 and 10000")
      <> (lit "Invalid amount: ") ++ s ++ lit ". Must be a number")
  /\ (exists parsed, validate_message (JStr (lit "09171234567 GIGA99 1")) = Valid parsed
                     /\ amount parsed = 1)
  /\ (exists parsed,
      validate_message (JStr (lit "09171234567 GIGA99 10000")) = Valid parsed
                     /\ amount parsed = 10000)
  /\ (exists e, validate_message (JStr (lit "09171234567 GIGA99 0")) = Invalid e)
  /\ (exists e, validate_message (JStr (lit "09171234567 GIGA99 10001")) = Invalid e).
Proof.
  intros Hs Hm Hp Hl.
  rewrite (validate_message_three _ _ _ _ Hs), Hm, Hp.
  replace (20 <? len promo) with false by (symmetry; apply Z.ltb_ge; lia).
  cbn [negb orb].
  repeat split.
  - intros [parsed H]. destruct (int_of_str amount_str) as [n|]; [|discriminate].
    exists n. split; [reflexivity|].
    destruct (n <=? 0) eqn:H0; [discriminate|].
    destruct (10000 <? n) eqn:H1; [discriminate|].
    apply Z.leb_gt in H0. apply Z.ltb_ge in H1. lia.
  - intros (n & -> & Hn).
    replace (n <=? 0) with false by (symmetry; apply Z.leb_gt; lia).
    replace (10000 <? n) with false by (symmetry; apply Z.ltb_ge; lia).
    eexists. reflexivity.
  - now intros ->.
  - intros n -> [Hn|Hn].
    + replace (n <=? 0) with true by (symmetry; apply Z.leb_le; lia).
      reflexivity.
    + replace (10000 <? n) with true by (symmetry; apply Z.ltb_lt; lia).
      now rewrite orb_true_r.
  - intros n s. apply amount_messages_differ.
  - eexists. split; [vm_compute; reflexivity | reflexivity].
  - eexists. split; [vm_compute; reflexivity | reflexivity].
  - eexists. vm_compute. reflexivity.
  - eexists. vm_compute. reflexivity.
Qed.

Lemma validate_message_amount_witness :
  exists parsed,
    validate_message (JStr (lit "09171234567 GIGA99 99")) = Valid parsed.
Proof.
  apply (validate_message_amount
           (lit "09171234567 GIGA99 99") (lit "09171234567") (lit "GIGA99") (lit "99"));
    [reflexivity | reflexivity | reflexivity | vm_compute; discriminate |].
  exists 99. split; [reflexivity | lia].
Defined.

(** C6: in a structured result the msisdn is the first token unchanged,
    the promo is the second token in upper case, the amount is the integer
    the third token parses to, and the network is SMART exactly when the
    uppercased promo starts with G (that is, when the code starts with g
    or G) and GLOBE otherwise. *)
Theorem validate_message_output (text : pystr) (parsed : reload_request) :
  validate_message (JStr text) = Valid parsed ->
  exists msisdn0 promo0 amount_str,
    split text = [msisdn0; promo0; amount_str]
    /\ msisdn parsed = msisdn0
    /\ promo parsed = upper promo0
    /\ int_of_str amount_str = Some (amount parsed)
    /\ (network parsed = (lit "SMART") <-> startswith (upper promo0) (lit "G") = true)
    /\ (network parsed = (lit "GLOBE") <-> startswith (upper promo0) (lit "G") = false)
    /\ (network parsed = (lit "SMART")
        <-> exists rest, promo0 = lit "g" ++ rest \/ promo0 = lit "G" ++ rest).
Proof.
  intros H.
  destruct (validate_message_valid _ _ H) as (m & p & a & Hs).
  exists m, p, a. split; [exact Hs|].
  rewrite (validate_message_three _ _ _ _ Hs) in H.
  destruct (negb (PHONE_PATTERN_match m)); [discriminate|].
  destruct (negb (isalnum p) || (20 <? len p)); [discriminate|].
  destruct (int_of_str a) as [n|]; [|discriminate].
  destruct ((n <=? 0) || (10000 <? n)); [discriminate|].
  remember (startswith (upper p) (lit "G")) as b eqn:Hb.
  injection H as <-. cbn [msisdn promo amount network].
  rewrite <- startswith_upper_G, <- Hb.
  destruct b; repeat split; intros Hx;
    first [reflexivity | discriminate Hx | vm_compute in Hx; discriminate Hx].
Qed.

Lemma validate_message_output_witness :
  exists msisdn0 promo0 amount_str,
    split (lit "09171234567 giga99 99") = [msisdn0; promo0; amount_str]
    /\ promo0 = lit "giga99".
Proof.
  destruct (validate_message_output (lit "09171234567 giga99 99")
              {| msisdn := lit "09171234567"; promo := lit "GIGA99";
                 amount := 99; network := lit "SMART" |} eq_refl)
    as (m & p & a & Hs & _).
  exists m, p, a. split; [exact Hs|].
  vm_compute in Hs. now injection Hs as _ <- _.
Defined.

End MessengerProofs.

(** ** The forwarder *)

Module ForwardProofs.
Import Py Messenger.

Section Forward.

Variable gateway : nat -> reload_request -> post_result.

(** One call of [forward] is one POST, answered by [forward_reply]. *)
Lemma forward_eq (parsed : reload_request) (sent : list reload_request) :
  forward gateway parsed sent
  = (forward_reply (gateway (length sent) parsed), sent ++ [parsed]).
Proof. reflexivity. Qed.

(** The webhook posts at most once, whatever the request. *)
Lemma messenger_webhook_posts (API_KEY : pystr) (req : request)
    (sent : list reload_request) :
  exists posted,
    snd (messenger_webhook API_KEY gateway req sent) = sent ++ posted
    /\ (length posted <= 1)%nat.
Proof.
  assert (Hnone : forall r : reply,
             snd (ret r sent) = sent ++ []
             /\ (length (@nil reload_request) <= 1)%nat).
  { intros r. simpl. rewrite app_nil_r. split; [reflexivity | lia]. }
  unfold messenger_webhook, require_api_key, messenger_webhook_body.
  destruct (bool_decide (X_API_Key req = Some API_KEY)); [|exists []; apply Hnone].
  destruct (request_json req) as [data|]; [|exists []; apply Hnone].
  destruct (negb (truthy data)); [exists []; apply Hnone|].
  destruct data; try (exists []; apply Hnone).
  destruct (negb (truthy _)); [exists []; apply Hnone|].
  destruct (validate_message _) as [parsed|e]; [|exists []; apply Hnone].
  exists [parsed]. rewrite forward_eq. split; [reflexivity | simpl; lia].
Qed.

(** C2, as amended: a forward attempt issues exactly one POST, and its
    answer is decided by what that POST did.  A reply whose status is not
    from 400 to 599 is a success (200) when its body decodes and 502
    "Invalid gateway response" when it does not; a status from 400 to 599 is
    502 with the upstream status; a timeout is 504; a connection failure
    that is not a timeout is 503; an exception of [requests.post] that is a
    [ValueError] is 502 "Invalid gateway response" and any other exception
    is 500.  The five answers of the specification are pairwise different,
    and the webhook never posts more than once. *)
Theorem forward_outcomes (parsed : reload_request) (sent : list reload_request) :
  let result := gateway (length sent) parsed in
  let answer := fst (forward gateway parsed sent) in
  snd (forward gateway parsed sent) = sent ++ [parsed]
  /\ (forall response j,
        result = PostReturns response ->
        ~ 400 <= status_code response < 600 ->
        decoded response = Some j ->
        answer = (Json (lit "success") (lit "Transaction queued") (Some j), 200))
  /\ (forall e, result = PostRaises e -> is_Timeout e = true ->
        answer = error (lit "Gateway timeout") 504)
  /\ (forall e, result = PostRaises e -> is_Timeout e = false ->
        is_ConnectionError e = true ->
        answer = error (lit "Gateway unavailable") 503)
  /\ (forall response,
        result = PostReturns response ->
        400 <= status_code response < 600 ->
        answer = error (lit "Gateway error: " ++ str_of_int (status_code response)) 502)
  /\ (forall response,
        result = PostReturns response ->
        ~ 400 <= status_code response < 600 ->
        decoded response = None ->
        answer = error (lit "Invalid gateway response") 502)
  /\ (forall e, result = PostRaises e -> is_Timeout e = false ->
        is_ConnectionError e = false ->
        answer = if is_ValueError e then error (lit "Invalid gateway response") 502
                 else internal_error)
  /\ (forall j code,
        let success :=
            (Json (lit "success") (lit "Transaction queued") (Some j), 200) in
        let timeout := error (lit "Gateway timeout") 504 in
        let unavailable := error (lit "Gateway unavailable") 503 in
        let upstream := error (lit "Gateway error: " ++ str_of_int code) 502 in
        let invalid := error (lit "Invalid gateway response") 502 in
        success <> timeout /\ success <> unavailable /\ success <> upstream
        /\ success <> invalid /\ timeout <> unavailable /\ timeout <> upstream
        /\ timeout <> invalid /\ unavailable <> upstream
        /\ unavailable <> invalid /\ upstream <> invalid)
  /\ (forall API_KEY req,
        (length (snd (messenger_webhook API_KEY gateway req sent))
         <= length sent + 1)%nat).
Proof.
  intros result answer. subst answer. rewrite forward_eq. cbn [fst snd].
  fold result. unfold forward_reply, try_forward, raise_for_status.
  repeat match goal with |- _ /\ _ => split end.
  - reflexivity.
  - intros response j -> Hs Hd. rewrite Hd.
    destruct (400 <=? status_code response) eqn:H1;
      destruct (status_code response <? 600) eqn:H2; try reflexivity.
    apply Z.leb_le in H1. apply Z.ltb_lt in H2. lia.
  - intros e -> He. now rewrite He.
  - intros e -> He Hc. now rewrite He, Hc.
  - intros response -> [H1 H2].
    apply Z.leb_le in H1. apply Z.ltb_lt in H2. now rewrite H1, H2.
  - intros response -> Hs Hd. rewrite Hd.
    destruct (400 <=? status_code response) eqn:H1;
      destruct (status_code response <? 600) eqn:H2; try reflexivity.
    apply Z.leb_le in H1. apply Z.ltb_lt in H2. lia.
  - intros e -> He Hc. rewrite He, Hc. now destruct e.
  - intros j code. cbv zeta. unfold error.
    repeat match goal with |- _ /\ _ => split end; discriminate.
  - intros API_KEY req.
    destruct (messenger_webhook_posts API_KEY req sent) as (posted & -> & Hp).
    rewrite length_app. lia.
Qed.

End Forward.

Lemma forward_outcomes_witness :
  let gateway := fun (_ : nat) (_ : reload_request) => PostRaises ReadTimeout in
  forward gateway sample_request []
      = (error (lit "Gateway timeout") 504, [sample_request]).
Proof.
  intros gateway.
  destruct (forward_outcomes gateway sample_request [])
    as (Hsent & _ & Htimeout & _).
  rewrite (surjective_pairing (forward gateway sample_request [])).
  rewrite Hsent, (Htimeout ReadTimeout eq_refl eq_refl). reflexivity.
Defined.

(** C2 as stated fails twice.  A reply that is neither 2xx nor an error
    status, here 300 with a body that decodes, is answered 200 and not 502
    with the upstream status.  And an exception of [requests.post] that no
    clause names, here [TooManyRedirects], is answered 500, which is none
    of the five outcomes. *)
Lemma forward_status_300_is_success :
  let response := {| status_code := 300; decoded := Some (JObj ∅) |} in
  let gateway := fun (_ : nat) (_ : reload_request) => PostReturns response in
  let redirects :=
    fun (_ : nat) (_ : reload_request) => PostRaises TooManyRedirects in
  ~ 200 <= status_code response < 300
  /\ fst (forward gateway sample_request [])
     = (Json (lit "success") (lit "Transaction queued") (Some (JObj ∅)), 200)
  /\ fst (forward gateway sample_request []) <> error (lit "Gateway error: 300") 502
  /\ fst (forward redirects sample_request [])
     = error (lit "Internal server error") 500.
Proof.
  cbv zeta. repeat split.
  - cbn. lia.
  - rewrite forward_eq. cbn [fst]. unfold forward_reply. cbn. discriminate.
Qed.

End ForwardProofs.

(** ** The clock and the text of a date *)

Module DatetimeProofs.
Import Py Datetime StringFacts.

(** [all_below n p] checks [p] on every integer from 0 up to [n - 1]. *)
Lemma all_below_spec (n : positive) (p : Z -> bool) :
  all_below n p = true -> forall i, 0 <= i < Z.pos n -> p i = true.
Proof.
  unfold all_below.
  pose (P := fun (k : positive) (st : Z * bool) =>
               fst st = Z.pos k
               /\ (snd st = true -> forall i, 0 <= i < Z.pos k -> p i = true)).
  assert (H : P n (Pos.iter (check_next p) (0, true) n)).
  { apply Pos.iter_ind; unfold P, check_next; cbn [fst snd].
    - split; [reflexivity|]. intros H i Hi.
      replace i with 0 by lia. exact H.
    - intros k st [Hf Hs]. split; [rewrite Hf; lia|].
      intros H i Hi. apply andb_true_iff in H as [H1 H2].
      destruct (Z.eq_dec i (Z.pos k)) as [->|Hne].
      + now rewrite <- Hf.
      + apply Hs; [exact H1 | lia]. }
  intros Hn. apply H. exact Hn.
Qed.

Lemma doe_ok_all : all_below 146097 doe_ok = true.
Proof. vm_compute. reflexivity. Qed.

(** Dates from 1970-01-01 to 9999-12-31 have a year of four digits, a
    month from 1 to 12 and a day from 1 to 31. *)
Lemma civil_from_days_range (days : Z) :
  0 <= days < 2932897 ->
  let '(y, m, d) := civil_from_days days in
  1970 <= y <= 9999 /\ 1 <= m <= 12 /\ 1 <= d <= 31.
Proof.
  intros Hd. unfold civil_from_days.
  set (z := days + 719468).
  set (era := z / 146097).
  set (doe := z - era * 146097).
  assert (Hz : z = 146097 * era + z mod 146097) by (apply Z.div_mod; lia).
  assert (Hm : 0 <= z mod 146097 < 146097) by (apply Z.mod_pos_bound; lia).
  assert (Hdoe : 0 <= doe < 146097) by (unfold doe; lia).
  assert (He : 4 <= era <= 24) by (unfold z in *; lia).
  pose proof (all_below_spec _ _ doe_ok_all doe Hdoe) as Hok.
  unfold doe_ok in Hok.
  destruct (civil_of_doe doe) as [[y m] d].
  repeat (apply andb_true_iff in Hok as [Hok ?]).
  repeat match goal with
         | H : (_ || _) = true |- _ => apply orb_true_iff in H
         | H : (_ <=? _) = true |- _ => apply Z.leb_le in H
         | H : (_ <? _) = true |- _ => apply Z.ltb_lt in H
         end.
  apply Z.leb_le in Hok.
  assert (Hlo : era = 4 -> 135080 <= doe) by (unfold doe, z in *; lia).
  assert (Hhi : era = 24 -> doe < 146037) by (unfold doe, z in *; lia).
  repeat match goal with
         | H : _ \/ _ |- _ => destruct H
         | H : (_ <=? _) = true |- _ => apply Z.leb_le in H
         | H : (_ <? _) = true |- _ => apply Z.ltb_lt in H
         end; lia.
Qed.

Lemma zfill4_ok_all : all_below 10000 (zfill_ok 4) = true.
Proof. vm_compute. reflexivity. Qed.

Lemma zfill2_ok_all : all_below 100 (zfill_ok 2) = true.
Proof. vm_compute. reflexivity. Qed.

Lemma zfill_ok_spec (w : nat) (n : Z) :
  zfill_ok w n = true ->
  length (zfill w n) = w /\ all_chars is_ascii_digit (zfill w n) = true.
Proof.
  unfold zfill_ok. intros H. apply andb_true_iff in H as [H1 H2].
  split; [now apply Nat.eqb_eq | exact H2].
Qed.

(** The days of a local time in range. *)
Lemma in_range_days (c : clock) :
  in_range c ->
  0 <= (utc_us c + utcoffset c * us_per_second) / us_per_day < 2932897.
Proof.
  unfold in_range. intros [H1 H2]. split.
  - apply Z.div_pos; [exact H1 | reflexivity].
  - apply Z.div_lt_upper_bound; [reflexivity|]. lia.
Qed.

(** [strftime('%Y%m%d')] of a local time in range is eight digits. *)
Lemma strftime_Ymd_digits (c : clock) :
  in_range c ->
  length (strftime_Ymd (now c)) = 8%nat
  /\ all_chars is_ascii_digit (strftime_Ymd (now c)) = true.
Proof.
  intros Hr. apply in_range_days in Hr.
  pose proof (civil_from_days_range _ Hr) as Hc.
  unfold strftime_Ymd, now, of_microseconds.
  destruct (civil_from_days _) as [[y m] d]. cbn [year month day].
  destruct Hc as (Hy & Hm & Hd).
  destruct (zfill_ok_spec 4 y) as [Ly Dy];
    [apply (all_below_spec _ _ zfill4_ok_all); lia|].
  destruct (zfill_ok_spec 2 m) as [Lm Dm];
    [apply (all_below_spec _ _ zfill2_ok_all); lia|].
  destruct (zfill_ok_spec 2 d) as [Ld Dd];
    [apply (all_below_spec _ _ zfill2_ok_all); lia|].
  rewrite !length_append, !all_chars_append, Ly, Lm, Ld, Dy, Dm, Dd.
  split; reflexivity.
Qed.

End DatetimeProofs.

(** ** The text of a UUID *)

Module UuidProofs.
Import Py Uuid StringFacts DatetimeProofs.

Lemma hex_digit_lower (n : Z) :
  0 <= n < 16 -> is_lower_hex (hex_digit n) = true.
Proof.
  apply (all_below_spec 16 (fun k => is_lower_hex (hex_digit k))).
  vm_compute. reflexivity.
Qed.

Lemma hex_length (w : nat) (n : Z) : length (hex w n) = w.
Proof.
  revert n; induction w as [|w IH]; intros n; cbn [hex]; [reflexivity|].
  rewrite length_append, IH. cbn [length]. lia.
Qed.

Lemma hex_lower (w : nat) (n : Z) : all_chars is_lower_hex (hex w n) = true.
Proof.
  revert n; induction w as [|w IH]; intros n; cbn [hex]; [reflexivity|].
  rewrite all_chars_append, IH. unfold all_chars. cbn [forallb].
  rewrite hex_digit_lower; [reflexivity|]. apply Z.mod_pos_bound. lia.
Qed.

Lemma substring_length (s : pystr) (a n : nat) :
  (a + n <= length s)%nat -> length (substring a n s) = n.
Proof.
  intros H. unfold substring. rewrite length_take, length_drop. lia.
Qed.

Lemma all_chars_take_drop (p : Z -> bool) (s : pystr) (n : nat) :
  all_chars p s = all_chars p (take n s) && all_chars p (drop n s).
Proof. unfold all_chars. now rewrite <- forallb_app, take_drop. Qed.

Lemma all_chars_take (p : Z -> bool) (s : pystr) (n : nat) :
  all_chars p s = true -> all_chars p (take n s) = true.
Proof.
  rewrite (all_chars_take_drop p s n). intros H.
  now apply andb_true_iff in H as [H _].
Qed.

Lemma all_chars_drop (p : Z -> bool) (s : pystr) (n : nat) :
  all_chars p s = true -> all_chars p (drop n s) = true.
Proof.
  rewrite (all_chars_take_drop p s n). intros H.
  now apply andb_true_iff in H as [_ H].
Qed.

Lemma substring_all_chars (p : Z -> bool) (s : pystr) (a n : nat) :
  all_chars p s = true -> all_chars p (substring a n s) = true.
Proof.
  intros H. unfold substring. now apply all_chars_take, all_chars_drop.
Qed.

Lemma take_append (a b : pystr) : take (length a) (a ++ b) = a.
Proof. apply take_app_length. Qed.

(** The first eight characters of the text of a UUID are the first eight
    of its thirty-two hexadecimal digits. *)
Lemma take_8_str (int : Z) : take 8 (str int) = substring 0 8 (hex 32 int).
Proof.
  unfold str.
  assert (L : length (substring 0 8 (hex 32 int)) = 8%nat).
  { apply substring_length. rewrite hex_length. lia. }
  rewrite <- L at 1. apply take_append.
Qed.

Lemma take_8_str_lower (int : Z) :
  length (take 8 (str int)) = 8%nat
  /\ all_chars is_lower_hex (take 8 (str int)) = true.
Proof.
  rewrite take_8_str. split.
  - apply substring_length. rewrite hex_length. lia.
  - apply substring_all_chars, hex_lower.
Qed.

Lemma is_lower_hex_cases (c : Z) :
  is_lower_hex c = true -> 48 <= c <= 57 \/ 97 <= c <= 102.
Proof.
  unfold is_lower_hex, is_ascii_digit. intros H.
  apply orb_true_iff in H as [H|H]; apply andb_true_iff in H as [H1 H2];
    apply Z.leb_le in H1, H2; lia.
Qed.

(** Upper case of a hexadecimal digit: the letters a to f move to A to F,
    the digits stay. *)
Lemma upper_char_hex (c : Z) :
  is_lower_hex c = true ->
  upper_char c = [if 97 <=? c then c - 32 else c]
  /\ is_upper_hex (if 97 <=? c then c - 32 else c) = true
  /\ islower (if 97 <=? c then c - 32 else c) = false.
Proof.
  intros H.
  assert (T : Datetime.all_below 128
                (fun k =>
                   negb (is_lower_hex k)
                   || (bool_decide
                         (upper_char k = [if 97 <=? k then k - 32 else k])
                       && is_upper_hex (if 97 <=? k then k - 32 else k)
                       && negb (islower (if 97 <=? k then k - 32 else k))))
              = true) by (vm_compute; reflexivity).
  assert (R : 0 <= c < 128) by (apply is_lower_hex_cases in H; lia).
  pose proof (all_below_spec _ _ T c R) as Hc.
  cbv beta in Hc. rewrite H in Hc. cbn [negb orb] in Hc.
  apply andb_true_iff in Hc as [Hc H3]. apply andb_true_iff in Hc as [H1 H2].
  apply bool_decide_eq_true_1 in H1. apply negb_true_iff in H3.
  now repeat split.
Qed.

Lemma upper_hex_eq (s : pystr) :
  all_chars is_lower_hex s = true ->
  upper s = map (fun c => if 97 <=? c then c - 32 else c) s.
Proof.
  unfold upper, all_chars. induction s as [|c s IH]; [reflexivity|].
  cbn [forallb flat_map map]. intros H. apply andb_true_iff in H as [Hc Hs].
  destruct (upper_char_hex c Hc) as [-> _]. now rewrite (IH Hs).
Qed.

Lemma upper_hex_length (s : pystr) :
  all_chars is_lower_hex s = true -> length (upper s) = length s.
Proof. intros H. rewrite (upper_hex_eq s H). apply length_map. Qed.

Lemma upper_hex (s : pystr) :
  all_chars is_lower_hex s = true ->
  all_chars is_upper_hex (upper s) = true
  /\ all_chars (fun c => negb (islower c)) (upper s) = true.
Proof.
  intros H. rewrite (upper_hex_eq s H). revert H.
  unfold all_chars. induction s as [|c s IH]; [now split|].
  cbn [forallb map]. intros H. apply andb_true_iff in H as [Hc Hs].
  destruct (IH Hs) as [H1 H2].
  destruct (upper_char_hex c Hc) as (_ & U1 & U2).
  now rewrite H1, H2, U1, U2.
Qed.

Lemma upper_hex_inj (s t : pystr) :
  all_chars is_lower_hex s = true -> all_chars is_lower_hex t = true ->
  upper s = upper t -> s = t.
Proof.
  intros Hs Ht. rewrite (upper_hex_eq s Hs), (upper_hex_eq t Ht).
  revert t Hs Ht. unfold all_chars.
  induction s as [|c s IH]; intros [|d t] Hs Ht H; cbn [map forallb] in *;
    try discriminate; [reflexivity|].
  apply andb_true_iff in Hs as [Hc Hs]. apply andb_true_iff in Ht as [Hd Ht].
  injection H as H1 H2. f_equal; [|now apply IH].
  apply is_lower_hex_cases in Hc, Hd.
  destruct (97 <=? c) eqn:Ec; destruct (97 <=? d) eqn:Ed;
    first [apply Z.leb_le in Ec | apply Z.leb_gt in Ec];
    first [apply Z.leb_le in Ed | apply Z.leb_gt in Ed]; lia.
Qed.

End UuidProofs.

(** ** The gateway: intake, queue and lookup *)

Module GatewayProofs.
Import Py Gateway StringFacts DatetimeProofs UuidProofs.

Lemma missing_in_complete (m : gmap pystr json) :
  complete m -> missing_in (JObj m) required_fields = Return [].
Proof.
  intros (H1 & H2 & H3). cbn [missing_in required_fields has_field].
  now rewrite !bool_decide_eq_true_2.
Qed.

Lemma missing_in_incomplete (m : gmap pystr json) :
  ~ complete m ->
  exists field rest, missing_in (JObj m) required_fields = Return (field :: rest).
Proof.
  intros H. cbn [missing_in required_fields has_field].
  destruct (bool_decide (is_Some (m !! (lit "msisdn")))) eqn:H1;
    destruct (bool_decide (is_Some (m !! (lit "promo")))) eqn:H2;
    destruct (bool_decide (is_Some (m !! (lit "amount")))) eqn:H3;
    try (eexists _, _; reflexivity).
  exfalso. apply H. repeat split; now eapply bool_decide_eq_true_1.
Qed.

(** An intake that commits: what it answers and what it appends. *)
Lemma reload_commits (e : env) (m : gmap pystr json) (amount : Z)
    (q : list transaction) :
  m <> ∅ -> complete m -> validate_amount m = Return amount ->
  reload e (Some (JObj m)) q =
    ((Queued (generate_reference e) (Z.of_nat (length q) + 1), 200),
     q ++ [new_transaction e m (generate_reference e) amount]).
Proof.
  intros Hne Hc Ha. unfold reload. cbn [truthy].
  rewrite bool_decide_eq_false_2 by exact Hne. cbn [negb].
  rewrite (missing_in_complete m Hc), Ha. cbv zeta.
  rewrite length_app. cbn [length]. do 3 f_equal. lia.
Qed.

(** Every other intake leaves the queue alone and does not answer QUEUED. *)
Lemma reload_rejects (e : env) (request_json : option json)
    (q : list transaction) :
  (forall m amount,
     request_json = Some (JObj m) -> m <> ∅ -> complete m ->
     validate_amount m <> Return amount) ->
  snd (reload e request_json q) = q
  /\ forall reference pos code,
       fst (reload e request_json q) <> (Queued reference pos, code).
Proof.
  intros H. unfold reload.
  destruct request_json as [data|]; [|split; [reflexivity | discriminate]].
  destruct (negb (truthy data)) eqn:Ht; [split; [reflexivity | discriminate]|].
  destruct (missing_in data required_fields) as [missing|ex] eqn:Hm;
    [|split; [reflexivity | discriminate]].
  destruct missing as [|field rest]; [|split; [reflexivity | discriminate]].
  destruct data as [| | | | | |m]; try (split; [reflexivity | discriminate]).
  assert (Hne : m <> ∅).
  { intros ->. cbn in Ht. discriminate Ht. }
  assert (Hc : complete m).
  { destruct (decide (complete m)) as [Hc|Hc]; [exact Hc|].
    destruct (missing_in_incomplete m Hc) as (f & r & E). congruence. }
  destruct (validate_amount m) as [amount|ex] eqn:Ha.
  - now destruct (H m amount eq_refl Hne Hc).
  - destruct ex; split; first [reflexivity | discriminate].
Qed.

(** The two cases together. *)
Lemma reload_cases (e : env) (request_json : option json)
    (q : list transaction) :
  (exists m amount,
      request_json = Some (JObj m) /\ m <> ∅ /\ complete m
      /\ validate_amount m = Return amount
      /\ reload e request_json q =
           ((Queued (generate_reference e) (Z.of_nat (length q) + 1), 200),
            q ++ [new_transaction e m (generate_reference e) amount]))
  \/ (snd (reload e request_json q) = q
      /\ forall reference pos code,
           fst (reload e request_json q) <> (Queued reference pos, code)).
Proof.
  destruct request_json as [[| | | | | |m]|];
    try (right; apply reload_rejects; intros; discriminate).
  destruct (decide (m = ∅)) as [->|Hne];
    [right; apply reload_rejects; intros m' a E; injection E as <-; congruence|].
  destruct (decide (complete m)) as [Hc|Hc];
    [|right; apply reload_rejects; intros m' a E; injection E as <-; congruence].
  destruct (validate_amount m) as [amount|ex] eqn:Ha;
    [|right; apply reload_rejects; intros m' a E; injection E as <-; congruence].
  left. exists m, amount.
  split; [reflexivity|]. split; [exact Hne|]. split; [exact Hc|].
  split; [exact Ha|]. now apply reload_commits.
Qed.

(** What an intake that answers QUEUED has done. *)
Lemma reload_queued_inv (e : env) (request_json : option json)
    (q q' : list transaction) (ref : pystr) (pos code : Z) :
  reload e request_json q = ((Queued ref pos, code), q') ->
  exists m amount,
    request_json = Some (JObj m) /\ m <> ∅ /\ complete m
    /\ validate_amount m = Return amount
    /\ ref = generate_reference e
    /\ pos = Z.of_nat (length q) + 1
    /\ code = 200
    /\ q' = q ++ [new_transaction e m ref amount].
Proof.
  intros H.
  destruct (reload_cases e request_json q)
    as [(m & amount & E & Hne & Hc & Ha & Hr) | [_ Hno]].
  - rewrite Hr in H. injection H as <- <- <- <-.
    exists m, amount. repeat (split; [assumption || reflexivity|]). reflexivity.
  - exfalso. apply (Hno ref pos code). now rewrite H.
Qed.

Lemma validate_amount_iff (m : gmap pystr json) (amount : Z) :
  validate_amount m = Return amount
  <-> int_of (default JNull (m !! (lit "amount"))) = Return amount /\ 0 < amount.
Proof.
  unfold validate_amount.
  destruct (int_of (default JNull (m !! (lit "amount")))) as [n|ex].
  - destruct (n <=? 0) eqn:Hn.
    + apply Z.leb_le in Hn. split; [discriminate|].
      intros [E H]. injection E as ->. lia.
    + apply Z.leb_gt in Hn. split.
      * intros E. injection E as ->. now split.
      * now intros [E _].
  - split; [discriminate | now intros [E _]].
Qed.

(** *** References *)

(** The text of a reference: a date of eight digits, and eight digits in
    upper-case hexadecimal. *)
Lemma generate_reference_parts (e : env) :
  Datetime.in_range (clock_reference e) ->
  let date := Datetime.strftime_Ymd (Datetime.now (clock_reference e)) in
  let suffix := upper (take 8 (Uuid.str (Uuid.uuid4 (urandom e)))) in
  generate_reference e = lit "TXN-" ++ date ++ lit "-" ++ suffix
  /\ length date = 8%nat
  /\ all_chars is_ascii_digit date = true
  /\ length suffix = 8%nat
  /\ all_chars Uuid.is_upper_hex suffix = true
  /\ all_chars (fun c => negb (islower c)) suffix = true.
Proof.
  intros Hr date suffix.
  destruct (strftime_Ymd_digits _ Hr) as [Ld Dd].
  destruct (take_8_str_lower (Uuid.uuid4 (urandom e))) as [Lu Hu].
  destruct (upper_hex _ Hu) as [U1 U2].
  assert (Ls : length suffix = 8%nat)
    by (unfold suffix; now rewrite upper_hex_length).
  repeat (split; [first [reflexivity | assumption]|]). assumption.
Qed.

(** Two references are the same exactly when their dates and the first
    eight characters of their UUIDs are. *)
Lemma generate_reference_eq_iff (e1 e2 : env) :
  Datetime.in_range (clock_reference e1) ->
  Datetime.in_range (clock_reference e2) ->
  generate_reference e1 = generate_reference e2
  <-> Datetime.strftime_Ymd (Datetime.now (clock_reference e1))
      = Datetime.strftime_Ymd (Datetime.now (clock_reference e2))
      /\ take 8 (Uuid.str (Uuid.uuid4 (urandom e1)))
         = take 8 (Uuid.str (Uuid.uuid4 (urandom e2))).
Proof.
  intros H1 H2. split.
  - intros H. unfold generate_reference in H.
    apply app_inv_head in H.
    destruct (strftime_Ymd_digits _ H1) as [L1 _].
    destruct (strftime_Ymd_digits _ H2) as [L2 _].
    apply append_inj_length in H as [Hd Hs]; [|congruence].
    split; [exact Hd|].
    apply app_inv_head in Hs.
    apply upper_hex_inj; [apply take_8_str_lower .. | exact Hs].
  - intros [Hd Hs]. unfold generate_reference. now rewrite Hd, Hs.
Qed.

(** C1, as amended: two sequential successful intakes, with clocks from
    1970 to 9999, get the same reference exactly when their local dates are
    the same and the first eight characters of their two UUIDs are the
    same; so the references differ whenever the dates or those eight
    characters differ, and nothing else keeps them apart. *)
Theorem sequential_references (e1 e2 : env) (rj1 rj2 : option json)
    (q q1 q2 : list transaction) (ref1 ref2 : pystr) (pos1 pos2 : Z) :
  Datetime.in_range (clock_reference e1) ->
  Datetime.in_range (clock_reference e2) ->
  reload e1 rj1 q = ((Queued ref1 pos1, 200), q1) ->
  reload e2 rj2 q1 = ((Queued ref2 pos2, 200), q2) ->
  ref1 = ref2
  <-> Datetime.strftime_Ymd (Datetime.now (clock_reference e1))
      = Datetime.strftime_Ymd (Datetime.now (clock_reference e2))
      /\ take 8 (Uuid.str (Uuid.uuid4 (urandom e1)))
         = take 8 (Uuid.str (Uuid.uuid4 (urandom e2))).
Proof.
  intros H1 H2 R1 R2.
  apply reload_queued_inv in R1 as (m1 & a1 & _ & _ & _ & _ & -> & _).
  apply reload_queued_inv in R2 as (m2 & a2 & _ & _ & _ & _ & -> & _).
  now apply generate_reference_eq_iff.
Qed.

Lemma sample_in_range :
  Datetime.in_range manila_evening /\ Datetime.in_range manila_evening_later.
Proof. split; vm_compute; split; congruence. Defined.

Lemma sequential_references_witness :
  (lit "TXN-20240102-ABCDEF01") = (lit "TXN-20240102-ABCDEF01")
  <-> Datetime.strftime_Ymd (Datetime.now manila_evening)
      = Datetime.strftime_Ymd (Datetime.now manila_evening_later)
      /\ take 8 (Uuid.str (Uuid.uuid4 (urandom sample_env)))
         = take 8 (Uuid.str (Uuid.uuid4 (urandom sample_env_later))).
Proof.
  pose (d1 := Some (JObj (fields (lit "09171234567") (lit "GIGA99") (JInt 99)))).
  pose (d2 := Some (JObj (fields (lit "09181234567") (lit "UNLI50") (JInt 50)))).
  pose (q1 := snd (reload sample_env d1 [])).
  pose (q2 := snd (reload sample_env_later d2 q1)).
  apply (sequential_references sample_env sample_env_later d1 d2
           [] q1 q2 _ _ 1 2
           (proj1 sample_in_range) (proj2 sample_in_range));
    vm_compute; reflexivity.
Defined.

(** C1 as stated fails: two intakes one after the other, five seconds
    apart and with different random bytes, are both queued under the same
    reference. *)
Lemma sequential_intakes_collide :
  exists q1 q2,
    reload sample_env
      (Some (JObj (fields (lit "09171234567") (lit "GIGA99") (JInt 99)))) []
    = ((Queued (lit "TXN-20240102-ABCDEF01") 1, 200), q1)
    /\ reload sample_env_later
         (Some (JObj (fields (lit "09181234567") (lit "UNLI50") (JInt 50)))) q1
       = ((Queued (lit "TXN-20240102-ABCDEF01") 2, 200), q2)
    /\ urandom sample_env <> urandom sample_env_later.
Proof.
  eexists _, _. split; [vm_compute; reflexivity|].
  split; [vm_compute; reflexivity | discriminate].
Qed.

(** C3, as amended: the reference of a successful intake, with a clock
    from 1970 to 9999, is the text TXN-, then the date of [datetime.now()],
    which is the date in the time zone of the process, as eight digits
    YYYYMMDD, then a hyphen, then exactly eight characters that are digits
    or upper-case letters A to F. *)
Theorem reference_format (e : env) (request_json : option json)
    (q q' : list transaction) (ref : pystr) (pos code : Z) :
  Datetime.in_range (clock_reference e) ->
  reload e request_json q = ((Queued ref pos, code), q') ->
  exists date suffix,
    ref = lit "TXN-" ++ date ++ lit "-" ++ suffix
    /\ date = Datetime.strftime_Ymd (Datetime.now (clock_reference e))
    /\ date = zfill 4 (Datetime.year (Datetime.now (clock_reference e)))
              ++ zfill 2 (Datetime.month (Datetime.now (clock_reference e)))
              ++ zfill 2 (Datetime.day (Datetime.now (clock_reference e)))
    /\ length date = 8%nat
    /\ all_chars is_ascii_digit date = true
    /\ length suffix = 8%nat
    /\ all_chars Uuid.is_upper_hex suffix = true
    /\ all_chars (fun c => negb (islower c)) suffix = true
    /\ length ref = 21%nat.
Proof.
  intros Hr H.
  apply reload_queued_inv in H as (m & a & _ & _ & _ & _ & -> & _).
  destruct (generate_reference_parts e Hr) as (E & Ld & Dd & Ls & Us & Ns).
  eexists _, _. split; [exact E|].
  repeat (split; [first [reflexivity | assumption]|]).
  rewrite E, !length_append, Ld, Ls. reflexivity.
Qed.

Lemma reference_format_witness :
  exists date suffix,
    lit "TXN-20240102-ABCDEF01" = lit "TXN-" ++ date ++ lit "-" ++ suffix
    /\ length date = 8%nat /\ length suffix = 8%nat.
Proof.
  destruct (reference_format sample_env
              (Some (JObj (fields (lit "09171234567") (lit "GIGA99") (JInt 99))))
              [] (snd (reload sample_env
                         (Some (JObj (fields (lit "09171234567") (lit "GIGA99") (JInt 99))))
                         []))
              (lit "TXN-20240102-ABCDEF01") 1 200 (proj1 sample_in_range))
    as (date & suffix & E & _ & _ & Ld & _ & Ls & _).
  - vm_compute. reflexivity.
  - now exists date, suffix.
Defined.

(** C3 as stated fails on the date: at 20:00 UTC on 2024-01-01, in a
    process whose zone is UTC+8, the reference carries 20240102, while the
    date in UTC is 20240101. *)
Lemma reference_date_is_local_not_utc :
  exists q',
    reload sample_env
      (Some (JObj (fields (lit "09171234567") (lit "GIGA99") (JInt 99)))) []
    = ((Queued (lit "TXN-20240102-ABCDEF01") 1, 200), q')
    /\ Datetime.strftime_Ymd (Datetime.utcnow (clock_reference sample_env))
       = lit "20240101"
    /\ substring 4 8 (lit "TXN-20240102-ABCDEF01")
       <> Datetime.strftime_Ymd (Datetime.utcnow (clock_reference sample_env)).
Proof.
  eexists. split; [vm_compute; reflexivity|].
  split; [vm_compute; reflexivity | vm_compute; discriminate].
Qed.

(** *** The queue *)

Lemma step_cases (o : op) (q : list transaction) :
  (exists txn, snd (step o q) = q ++ [txn]
               /\ is_success (fst (step o q)) = true)
  \/ (snd (step o q) = q /\ is_success (fst (step o q)) = false).
Proof.
  destruct o as [e rj| | |r]; try (right; split; reflexivity).
  unfold step.
  destruct (reload_cases e rj q)
    as [(m & amount & _ & _ & _ & _ & Hr) | [Hq Hno]].
  - left. rewrite Hr. eexists. split; reflexivity.
  - right. destruct (reload e rj q) as [[body code] q0]. cbn in *.
    split; [exact Hq|].
    destruct body as [msg|ex|ref pos]; try reflexivity.
    now destruct (Hno ref pos code).
Qed.

(** The queue after a run is the queue before it with one record added
    for each successful intake. *)
Lemma run_appends (ops : list op) (q : list transaction) :
  exists added,
    snd (run ops q) = q ++ added
    /\ length added = successes (fst (run ops q)).
Proof.
  revert q; induction ops as [|o ops IH]; intros q.
  - exists []. split; [symmetry; apply app_nil_r | reflexivity].
  - cbn [run].
    destruct (step o q) as [a q1] eqn:Hs.
    destruct (IH q1) as (added & Hq & Hl).
    destruct (run ops q1) as [answers q2]. cbn [fst snd] in *.
    pose proof (step_cases o q) as Hc. rewrite Hs in Hc. cbn [fst snd] in Hc.
    unfold successes in *. rewrite filter_cons.
    destruct Hc as [(txn & -> & Ha) | [-> Ha]].
    + exists (txn :: added). rewrite Hq, <- app_assoc. split; [reflexivity|].
      rewrite decide_True by exact Ha. cbn [length]. now rewrite Hl.
    + exists added. split; [exact Hq|].
      rewrite decide_False by (rewrite Ha; discriminate). exact Hl.
Qed.

(** C7: a successful intake appends its record to the queue and answers
    200 with status QUEUED, the reference of that record, and a position
    that is the size of the queue right after the insertion; counted from
    the start of the process, this is the number of earlier successful
    intakes plus one. *)
Theorem intake_queue_position (ops : list op) (e : env)
    (request_json : option json) (q' : list transaction)
    (ref : pystr) (pos code : Z) :
  let answers := fst (run ops []) in
  let q := snd (run ops []) in
  reload e request_json q = ((Queued ref pos, code), q') ->
  code = 200
  /\ (exists txn, q' = q ++ [txn] /\ reference txn = ref
                  /\ status txn = lit "QUEUED")
  /\ pos = Z.of_nat (length q')
  /\ pos = Z.of_nat (successes answers) + 1.
Proof.
  intros answers q H.
  apply reload_queued_inv in H
    as (m & amount & _ & _ & _ & _ & Href & -> & -> & ->).
  destruct (run_appends ops []) as (added & Hq & Hl).
  fold q in Hq. fold answers in Hl. cbn [app] in Hq.
  split; [reflexivity|]. split; [|split].
  - eexists. split; [reflexivity|]. split; reflexivity.
  - rewrite length_app. cbn [length]. lia.
  - rewrite <- Hl, <- Hq. reflexivity.
Qed.

Lemma intake_queue_position_witness :
  exists q',
    reload sample_env_later
      (Some (JObj (fields (lit "09181234567") (lit "UNLI50") (JInt 50))))
      (snd (run [Reload sample_env
                   (Some (JObj (fields (lit "09171234567") (lit "GIGA99") (JInt 99))));
                 GetQueue] []))
    = ((Queued (lit "TXN-20240102-ABCDEF01") 2, 200), q')
    /\ 2 = Z.of_nat (length q').
Proof.
  eexists. split; [vm_compute; reflexivity|].
  eapply (intake_queue_position
            [Reload sample_env
               (Some (JObj (fields (lit "09171234567") (lit "GIGA99") (JInt 99))));
             GetQueue]
            sample_env_later
            (Some (JObj (fields (lit "09181234567") (lit "UNLI50") (JInt 50))))
            _ (lit "TXN-20240102-ABCDEF01") 2 200).
  vm_compute. reflexivity.
Defined.

(** *** Lookup by reference *)

Lemma get_status_not_found (r : pystr) (q : list transaction) :
  (forall t, In t q -> reference t <> r) ->
  get_status r q
  = (NotFound (lit "NOT_FOUND") (lit "Transaction " ++ r ++ lit " not found"), 404).
Proof.
  induction q as [|t q IH]; intros H; [reflexivity|].
  cbn [get_status]. case_bool_decide as E.
  - now destruct (H t (or_introl eq_refl)).
  - apply IH. intros t' Ht'. apply H. now right.
Qed.

(** The scan stops at the first record that carries the reference. *)
Lemma get_status_first (r : pystr) (before after : list transaction)
    (t : transaction) :
  (forall t', In t' before -> reference t' <> r) ->
  reference t = r ->
  get_status r (before ++ t :: after) = (Found t, 200).
Proof.
  induction before as [|b before IH]; intros H Ht.
  - cbn [app get_status]. now rewrite bool_decide_eq_true_2 by exact Ht.
  - cbn [app get_status]. case_bool_decide as E.
    + now destruct (H b (or_introl eq_refl)).
    + apply IH; [|exact Ht]. intros t' Ht'. apply H. now right.
Qed.

Lemma get_status_found (r : pystr) (q : list transaction) :
  (exists t, In t q /\ reference t = r) ->
  exists first before after,
    q = before ++ first :: after
    /\ reference first = r
    /\ (forall t', In t' before -> reference t' <> r)
    /\ get_status r q = (Found first, 200).
Proof.
  induction q as [|t q IH]; intros (x & Hx & Hr); [destruct Hx|].
  destruct (decide (reference t = r)) as [E|N].
  - exists t, [], q. split; [reflexivity|]. split; [exact E|].
    split; [intros t' []|]. now apply (get_status_first r [] q t).
  - destruct Hx as [->|Hx]; [contradiction|].
    destruct (IH (ex_intro _ x (conj Hx Hr)))
      as (first & before & after & -> & Hf & Hb & _).
    exists first, (t :: before), after. split; [reflexivity|].
    split; [exact Hf|].
    assert (Hb' : forall t', In t' (t :: before) -> reference t' <> r).
    { intros t' [<-|Ht']; [exact N | now apply Hb]. }
    split; [exact Hb'|]. now apply (get_status_first r (t :: before)).
Qed.

(** C8, as amended: after a successful intake with reference r the lookup
    of r answers 200 with the first record of the queue that carries r;
    this is the record just committed whenever no earlier record carries
    r.  A reference that no record carries is answered NOT_FOUND with 404.
    A lookup leaves the queue as it is. *)
Theorem lookup_after_intake (e : env) (request_json : option json)
    (q q' : list transaction) (ref : pystr) (pos code : Z) :
  reload e request_json q = ((Queued ref pos, code), q') ->
  (exists txn,
      q' = q ++ [txn] /\ reference txn = ref
      /\ (exists first before after,
             q' = before ++ first :: after
             /\ reference first = ref
             /\ (forall t, In t before -> reference t <> ref)
             /\ get_status ref q' = (Found first, 200))
      /\ ((forall t, In t q -> reference t <> ref) ->
          get_status ref q' = (Found txn, 200)))
  /\ (forall r queue,
        (forall t, In t queue -> reference t <> r) ->
        get_status r queue
        = (NotFound (lit "NOT_FOUND")
            (lit "Transaction " ++ r ++ lit " not found"), 404))
  /\ (forall r queue, snd (step (GetStatus r) queue) = queue).
Proof.
  intros H.
  apply reload_queued_inv in H
    as (m & amount & _ & _ & _ & _ & Href & _ & _ & ->).
  split; [|split; [apply get_status_not_found | reflexivity]].
  eexists. split; [reflexivity|]. split; [reflexivity|]. split.
  - apply get_status_found. exists (new_transaction e m ref amount).
    split; [|reflexivity]. apply in_or_app. right. now left.
  - intros Hfresh. now apply get_status_first.
Qed.

Lemma lookup_after_intake_witness :
  exists txn,
    get_status (lit "TXN-20240102-ABCDEF01")
      (snd (reload sample_env
              (Some (JObj (fields (lit "09171234567") (lit "GIGA99") (JInt 99)))) []))
    = (Found txn, 200)
    /\ msisdn txn = JStr (lit "09171234567").
Proof.
  destruct (lookup_after_intake sample_env
              (Some (JObj (fields (lit "09171234567") (lit "GIGA99") (JInt 99))))
              [] (snd (reload sample_env
                         (Some (JObj (fields (lit "09171234567") (lit "GIGA99") (JInt 99))))
                         []))
              (lit "TXN-20240102-ABCDEF01") 1 200)
    as [(txn & Hq & _ & _ & Hfresh) _].
  - vm_compute. reflexivity.
  - exists txn. split; [apply Hfresh; intros t []|].
    apply app_inj_tail in Hq as [_ <-]. reflexivity.
Defined.

(** C8 as stated fails when the reference is already in the queue: after
    the second of two intakes that share a reference, the lookup answers
    with the record of the first. *)
Lemma lookup_returns_earlier_record :
  exists first second q1 q2,
    reload sample_env
      (Some (JObj (fields (lit "09171234567") (lit "GIGA99") (JInt 99)))) []
    = ((Queued (lit "TXN-20240102-ABCDEF01") 1, 200), q1)
    /\ reload sample_env_later
         (Some (JObj (fields (lit "09181234567") (lit "UNLI50") (JInt 50)))) q1
       = ((Queued (lit "TXN-20240102-ABCDEF01") 2, 200), q2)
    /\ q2 = [first; second]
    /\ get_status (lit "TXN-20240102-ABCDEF01") q2 = (Found first, 200)
    /\ msisdn first = JStr (lit "09171234567")
    /\ msisdn second = JStr (lit "09181234567")
    /\ first <> second.
Proof.
  eexists _, _, _, _. split; [vm_compute; reflexivity|].
  split; [vm_compute; reflexivity|].
  split; [reflexivity|]. split; [vm_compute; reflexivity|].
  split; [reflexivity|]. split; [reflexivity|]. discriminate.
Qed.

(** *** Append only *)

(** C9: whatever requests the gateway handles (intake, health, list,
    lookup), the queue afterwards is the queue before with records added
    at its end: every record is still there, at its position and unchanged,
    and so is its reference. *)
Theorem queue_append_only (ops : list op) (q : list transaction) :
  exists added,
    snd (run ops q) = q ++ added
    /\ (forall (i : nat) (txn : transaction),
          q !! i = Some txn -> snd (run ops q) !! i = Some txn)
    /\ (forall (i : nat) (txn : transaction),
          q !! i = Some txn ->
          reference <$> (snd (run ops q) !! i) = Some (reference txn))
    /\ (length q <= length (snd (run ops q)))%nat.
Proof.
  destruct (run_appends ops q) as (added & Hq & _).
  exists added. rewrite Hq. split; [reflexivity|].
  assert (H : forall (i : nat) (txn : transaction),
             q !! i = Some txn -> (q ++ added) !! i = Some txn).
  { intros i txn Hi. rewrite lookup_app_l; [exact Hi|].
    now apply lookup_lt_Some in Hi. }
  split; [exact H|]. split.
  - intros i txn Hi. now rewrite (H i txn Hi).
  - rewrite length_app. lia.
Qed.

(** *** What the intake checks *)

Lemma fields_lookup (msisdn0 promo0 : pystr) (amount0 : json) :
  fields msisdn0 promo0 amount0 !! (lit "msisdn") = Some (JStr msisdn0)
  /\ fields msisdn0 promo0 amount0 !! (lit "promo") = Some (JStr promo0)
  /\ fields msisdn0 promo0 amount0 !! (lit "amount") = Some amount0.
Proof.
  unfold fields. split; [|split]; reflexivity.
Qed.

Lemma fields_complete (msisdn0 promo0 : pystr) (amount0 : json) :
  fields msisdn0 promo0 amount0 <> ∅ /\ complete (fields msisdn0 promo0 amount0).
Proof.
  destruct (fields_lookup msisdn0 promo0 amount0) as (H1 & H2 & H3).
  split.
  - intros E. rewrite E, lookup_empty in H1. discriminate H1.
  - unfold complete. rewrite H1, H2, H3. repeat split; eexists; reflexivity.
Qed.

(** C10: for a mapping that is not empty, the intake succeeds exactly
    when msisdn, promo and amount are all present and [int] of the amount
    is an integer above zero.  The record keeps the msisdn and the promo as
    submitted and that integer as its amount: an msisdn that is no phone
    number is accepted, an amount of 1000000 is queued, and the fractional
    amount 99.5 is accepted and stored as 99. *)
Theorem intake_succeeds_iff (e : env) (m : gmap pystr json)
    (q : list transaction) :
  m <> ∅ ->
  ((exists ref pos q',
       reload e (Some (JObj m)) q = ((Queued ref pos, 200), q'))
   <-> (complete m
        /\ exists n, int_of (default JNull (m !! (lit "amount"))) = Return n
                     /\ 0 < n))
  /\ (forall ref pos code q',
        reload e (Some (JObj m)) q = ((Queued ref pos, code), q') ->
        exists txn,
          q' = q ++ [txn]
          /\ int_of (default JNull (m !! (lit "amount"))) = Return (amount txn)
          /\ m !! (lit "msisdn") = Some (msisdn txn)
          /\ m !! (lit "promo") = Some (promo txn))
  /\ (exists ref pos txn,
        reload e (Some (JObj (fields (lit "not a phone number") (lit "GIGA99")
                                (JInt 1000000)))) q
        = ((Queued ref pos, 200), q ++ [txn])
        /\ msisdn txn = JStr (lit "not a phone number")
        /\ amount txn = 1000000)
  /\ (exists ref pos txn,
        reload e (Some (JObj (fields (lit "09171234567") (lit "GIGA99")
                                (JFloat (Finite 199 (-1)))))) q
        = ((Queued ref pos, 200), q ++ [txn])
        /\ amount txn = 99).
Proof.
  intros Hne. split; [|split; [|split]].
  - split.
    + intros (ref & pos & q' & H).
      apply reload_queued_inv in H as (m' & a & E & _ & Hc & Ha & _).
      injection E as <-. split; [exact Hc|].
      exists a. now apply validate_amount_iff.
    + intros (Hc & n & Hn). apply validate_amount_iff in Hn.
      rewrite (reload_commits e m n q Hne Hc Hn). eexists _, _, _. reflexivity.
  - intros ref pos code q' H.
    apply reload_queued_inv in H as (m' & a & E & _ & Hc & Ha & _ & _ & _ & ->).
    injection E as <-. apply validate_amount_iff in Ha as [Ha _].
    destruct Hc as ([x Hx] & [y Hy] & _).
    eexists. split; [reflexivity|]. cbn [amount msisdn promo new_transaction].
    rewrite Hx, Hy. now repeat split.
  - destruct (fields_complete (lit "not a phone number") (lit "GIGA99") (JInt 1000000))
      as [Hn Hc].
    rewrite (reload_commits e _ 1000000 q Hn Hc eq_refl).
    eexists _, _, _. split; [reflexivity|]. split; reflexivity.
  - destruct (fields_complete (lit "09171234567") (lit "GIGA99") (JFloat (Finite 199 (-1))))
      as [Hn Hc].
    rewrite (reload_commits e _ 99 q Hn Hc eq_refl).
    eexists _, _, _. split; reflexivity.
Qed.

Lemma intake_succeeds_iff_witness :
  exists ref pos q',
    reload sample_env
      (Some (JObj (fields (lit "09171234567") (lit "GIGA99") (JInt 99)))) []
    = ((Queued ref pos, 200), q').
Proof.
  apply (intake_succeeds_iff sample_env
           (fields (lit "09171234567") (lit "GIGA99") (JInt 99)) []
           (proj1 (fields_complete (lit "09171234567") (lit "GIGA99") (JInt 99)))).
  split; [exact (proj2 (fields_complete (lit "09171234567") (lit "GIGA99") (JInt 99)))|].
  exists 99. split; [reflexivity | lia].
Defined.

End GatewayProofs.

(** * Further properties of the parser and of the webhook *)

Module ParserProofs.
Import Py Messenger StringFacts DatetimeProofs MessengerProofs.

(** *** Tokens *)

Lemma nospace_append (a b : pystr) :
  nospace (a ++ b) = nospace a && nospace b.
Proof. apply all_chars_append. Qed.

Lemma nospace_cons (c : Z) (s : pystr) :
  nospace (c :: s) = negb (isspace c) && nospace s.
Proof. reflexivity. Qed.

(** The tokens of [split] are not empty and hold no whitespace. *)
Lemma split_from_tokens (s : pystr) :
  forall tok, nospace tok = true ->
    Forall (fun t => t <> [] /\ nospace t = true) (split_from tok s).
Proof.
  induction s as [|c r IH]; intros tok Ht; cbn [split_from].
  - destruct tok; [constructor|]. constructor; [|constructor]. now split.
  - destruct (isspace c) eqn:Hc.
    + destruct tok as [|x tok]; [now apply IH|].
      constructor; [now split | now apply IH].
    + apply IH. rewrite nospace_append, Ht, nospace_cons, Hc. reflexivity.
Qed.

Lemma split_tokens (s : pystr) :
  Forall (fun t => t <> [] /\ nospace t = true) (split s).
Proof. now apply split_from_tokens. Qed.

(** A run without whitespace, then a space: one token. *)
Lemma split_from_token_space (s rest : pystr) :
  forall tok, nospace s = true -> tok ++ s <> [] ->
    split_from tok (s ++ 32 :: rest) = (tok ++ s) :: split_from [] rest.
Proof.
  induction s as [|c r IH]; intros tok Hs Hne.
  - rewrite append_nil_r in *. cbn [app split_from].
    change (isspace 32) with true. cbv iota.
    destruct tok; [contradiction | reflexivity].
  - rewrite nospace_cons in Hs. apply andb_true_iff in Hs as [Hc Hr].
    apply negb_true_iff in Hc. cbn [app split_from]. rewrite Hc.
    rewrite IH; [| exact Hr | now destruct tok].
    now rewrite append_assoc.
Qed.

(** A run without whitespace at the end of the text: the last token. *)
Lemma split_from_token_end (s : pystr) :
  forall tok, nospace s = true -> tok ++ s <> [] ->
    split_from tok s = [tok ++ s].
Proof.
  induction s as [|c r IH]; intros tok Hs Hne.
  - rewrite append_nil_r in *. cbn [split_from].
    destruct tok; [contradiction | reflexivity].
  - rewrite nospace_cons in Hs. apply andb_true_iff in Hs as [Hc Hr].
    apply negb_true_iff in Hc. cbn [split_from]. rewrite Hc.
    rewrite IH; [| exact Hr | now destruct tok].
    now rewrite append_assoc.
Qed.

(** Three tokens joined by single spaces split into themselves. *)
Lemma split_joined (a b c : pystr) :
  a <> [] -> b <> [] -> c <> [] ->
  nospace a = true -> nospace b = true -> nospace c = true ->
  split (a ++ lit " " ++ b ++ lit " " ++ c) = [a; b; c].
Proof.
  intros Ha Hb Hc Na Nb Nc. unfold split.
  change (a ++ lit " " ++ b ++ lit " " ++ c)
    with (a ++ 32 :: (b ++ 32 :: c)).
  rewrite (split_from_token_space a _ []) by assumption.
  rewrite (split_from_token_space b _ []) by assumption.
  now rewrite (split_from_token_end c []) by assumption.
Qed.

(** *** The msisdn *)

(** On a token, the pattern accepts exactly the texts of eleven
    characters that are 09 and nine decimal digits. *)
Lemma PHONE_PATTERN_match_token (m : pystr) :
  nospace m = true ->
  PHONE_PATTERN_match m = true
  <-> length m = 11%nat /\ startswith m (lit "09") = true
      /\ all_chars isdecimal (drop 2 m) = true.
Proof.
  intros Hn. split.
  - unfold PHONE_PATTERN_match.
    destruct m as [|c0 [|c1 r]]; try discriminate.
    intros H. apply andb_true_iff in H as [H Hd].
    apply andb_true_iff in H as [H Ha]. apply andb_true_iff in H as [H Hl].
    apply andb_true_iff in H as [H0 H1].
    apply Z.eqb_eq in H0, H1. subst c0 c1. apply Nat.eqb_eq in Hl.
    assert (E : r = take 9 r).
    { apply orb_true_iff in Hd as [Hd|Hd]; apply bool_decide_eq_true_1 in Hd.
      - rewrite <- (take_drop 9 r) at 1. now rewrite Hd, app_nil_r.
      - exfalso. rewrite !nospace_cons in Hn.
        apply andb_true_iff in Hn as [_ Hn]. apply andb_true_iff in Hn as [_ Hn].
        rewrite <- (take_drop 9 r), Hd, nospace_append in Hn.
        apply andb_true_iff in Hn as [_ Hn]. vm_compute in Hn. discriminate Hn. }
    rewrite <- E in Hl, Ha. change (drop 2 (48 :: 57 :: r)) with r.
    cbn [length]. rewrite Hl.
    split; [reflexivity|]. split; [reflexivity | exact Ha].
  - intros (Hl & Hp & Hd).
    destruct m as [|c0 [|c1 r]]; try discriminate.
    cbn in Hp. apply andb_true_iff in Hp as [H0 Hp].
    apply andb_true_iff in Hp as [H1 _].
    apply Z.eqb_eq in H0, H1.
    change (code "0") with 48 in H0. change (code "9") with 57 in H1.
    subst c0 c1. cbn [length] in Hl. injection Hl as Hl.
    change (drop 2 (48 :: 57 :: r)) with r in Hd.
    unfold PHONE_PATTERN_match.
    assert (Et : take 9 r = r) by (apply take_ge; lia).
    assert (Ed : drop 9 r = []) by (apply drop_ge; lia).
    rewrite Et, Ed, Hl, Hd. reflexivity.
Qed.

(** A structured result and the tokens it was made from. *)
Lemma validate_message_inv (text : pystr) (parsed : reload_request) :
  validate_message (JStr text) = Valid parsed ->
  exists m p a n,
    split text = [m; p; a]
    /\ PHONE_PATTERN_match m = true
    /\ isalnum p = true /\ len p <= 20
    /\ int_of_str a = Some n /\ 1 <= n <= 10000
    /\ parsed = {| msisdn := m; promo := upper p; amount := n;
                   network := if startswith (upper p) (lit "G")
                              then lit "SMART" else lit "GLOBE" |}.
Proof.
  intros H.
  destruct (validate_message_valid _ _ H) as (m & p & a & Hs).
  rewrite (validate_message_three _ _ _ _ Hs) in H.
  destruct (PHONE_PATTERN_match m) eqn:Hm; [|discriminate].
  destruct (isalnum p) eqn:Hp; [|discriminate].
  destruct (20 <? len p) eqn:Hl; [discriminate|].
  destruct (int_of_str a) as [n|] eqn:Ha; [|discriminate].
  destruct (n <=? 0) eqn:H0; [discriminate|].
  destruct (10000 <? n) eqn:H1; [discriminate|].
  cbn [negb orb] in H. injection H as <-.
  apply Z.ltb_ge in Hl. apply Z.leb_gt in H0. apply Z.ltb_ge in H1.
  exists m, p, a, n. repeat (split; [assumption || lia || reflexivity|]).
  reflexivity.
Qed.

(** X1: in a message of three tokens the msisdn check passes exactly when
    the first token has eleven characters, 09 and then nine decimal
    digits; any other first token is answered with the phone number error,
    which quotes it, whatever the promo and the amount are. *)
Theorem msisdn_check (text m p a : pystr) :
  split text = [m; p; a] ->
  (PHONE_PATTERN_match m = true
   <-> length m = 11%nat /\ startswith m (lit "09") = true
       /\ all_chars isdecimal (drop 2 m) = true)
  /\ (PHONE_PATTERN_match m = false ->
      validate_message (JStr text)
      = Invalid (lit "Invalid phone number format: " ++ m
                 ++ lit ". Must be 09XXXXXXXXX")).
Proof.
  intros Hs. split.
  - apply PHONE_PATTERN_match_token.
    pose proof (split_tokens text) as Ht. rewrite Hs in Ht.
    now apply Forall_cons_1 in Ht as [[_ Hn] _].
  - intros Hm. now rewrite (validate_message_three _ _ _ _ Hs), Hm.
Qed.

Lemma msisdn_check_witness :
  validate_message (JStr (lit "9171234567 GIGA99 99"))
  = Invalid (lit "Invalid phone number format: 9171234567. Must be 09XXXXXXXXX").
Proof.
  apply (msisdn_check (lit "9171234567 GIGA99 99") (lit "9171234567")
           (lit "GIGA99") (lit "99"));
    vm_compute; reflexivity.
Defined.

(** *** The fields of a structured result *)

Lemma isspace_range (c : Z) : isspace c = true -> 0 <= c < 12289.
Proof.
  unfold isspace, in_ranges, space_ranges. cbn [existsb fst snd].
  rewrite !orb_true_iff, !andb_true_iff, !Z.leb_le. lia.
Qed.

(** An alphanumeric character is no whitespace. *)
Lemma alnum_nospace (c : Z) : isalnum_char c = true -> isspace c = false.
Proof.
  intros H. destruct (isspace c) eqn:Hs; [|reflexivity].
  assert (T : Datetime.all_below 12289
                (fun k => negb (isspace k && isalnum_char k)) = true)
    by (vm_compute; reflexivity).
  pose proof (all_below_spec _ _ T c (isspace_range c Hs)) as Hc.
  cbv beta in Hc. rewrite Hs, H in Hc. discriminate Hc.
Qed.

(** The upper case of a character has one to three characters, and
    [upper] leaves it as it is. *)
Lemma upper_char_shape (c : Z) :
  upper_char c <> []
  /\ (length (upper_char c) <= 3)%nat
  /\ upper (upper_char c) = upper_char c.
Proof.
  assert (T : forallb (fun e => match snd e with [] => false | _ => true end
                                && (length (snd e) <=? 3)%nat
                                && bool_decide (upper (snd e) = snd e))
                upper_table = true) by (vm_compute; reflexivity).
  destruct (upper_char_cases c) as [(e & Hi & <- & He) | Hc].
  - apply (proj1 (forallb_forall _ _) T) in Hi.
    apply andb_true_iff in Hi as [Hi H3]. apply andb_true_iff in Hi as [H1 H2].
    rewrite He. apply Nat.leb_le in H2. apply bool_decide_eq_true_1 in H3.
    split; [now destruct (snd e) | now split].
  - rewrite Hc. split; [discriminate|]. split; [cbn; lia|].
    unfold upper. cbn [flat_map]. now rewrite Hc.
Qed.

Lemma upper_shape (p : pystr) :
  (p <> [] -> upper p <> [])
  /\ (length (upper p) <= 3 * length p)%nat
  /\ upper (upper p) = upper p.
Proof.
  unfold upper. induction p as [|c p (I1 & I2 & I3)].
  - split; [now intros H|]. split; [cbn; lia | reflexivity].
  - destruct (upper_char_shape c) as (H1 & H2 & H3). cbn [flat_map].
    split; [intros _ E; apply app_eq_nil in E as [E _]; contradiction|].
    split; [rewrite length_app; cbn [length]; lia|].
    rewrite flat_map_app. unfold upper in H3. now rewrite H3, I3.
Qed.

Lemma isalnum_all (p : pystr) :
  isalnum p = true <-> p <> [] /\ all_chars isalnum_char p = true.
Proof.
  destruct p as [|c p]; cbn [isalnum].
  - split; [discriminate | now intros [H _]].
  - split; [now split | now intros [_ H]].
Qed.

Lemma alnum_string_nospace (p : pystr) :
  all_chars isalnum_char p = true -> nospace p = true.
Proof.
  unfold nospace, all_chars. induction p as [|c p IH]; [reflexivity|].
  cbn [forallb]. intros H. apply andb_true_iff in H as [Hc Hp].
  now rewrite (alnum_nospace c Hc), (IH Hp).
Qed.

(** X2: every field of a structured result is well formed: the msisdn is
    09 and nine decimal digits; the promo is the upper case of an
    alphanumeric token of at most 20 characters, so it is not empty, has at
    most 60 characters and is left as it is by [upper]; the amount lies
    from 1 to 10000; the network is SMART or GLOBE. *)
Theorem parsed_well_formed (text : pystr) (parsed : reload_request) :
  validate_message (JStr text) = Valid parsed ->
  (length (msisdn parsed) = 11%nat
   /\ startswith (msisdn parsed) (lit "09") = true
   /\ all_chars isdecimal (drop 2 (msisdn parsed)) = true)
  /\ ((exists p, promo parsed = upper p /\ isalnum p = true /\ len p <= 20)
      /\ promo parsed <> []
      /\ len (promo parsed) <= 60
      /\ upper (promo parsed) = promo parsed)
  /\ 1 <= amount parsed <= 10000
  /\ (network parsed = lit "SMART" \/ network parsed = lit "GLOBE").
Proof.
  intros H.
  apply validate_message_inv in H
    as (m & p & a & n & Hs & Hm & Hp & Hl & Ha & Hn & ->).
  cbn [msisdn promo amount network].
  pose proof (split_tokens text) as Ht. rewrite Hs in Ht.
  apply Forall_cons_1 in Ht as [[_ Nm] _].
  destruct (upper_shape p) as (U1 & U2 & U3).
  split; [now apply PHONE_PATTERN_match_token|].
  split; [|split; [exact Hn | destruct (startswith _ _); auto]].
  split; [now exists p|].
  apply isalnum_all in Hp as [Hne Hp].
  split; [now apply U1|]. split; [unfold len in *; lia | exact U3].
Qed.

Lemma parsed_well_formed_witness :
  1 <= 99 <= 10000.
Proof.
  apply (parsed_well_formed (lit "  09171234567   Giga99 99 ")
           {| msisdn := lit "09171234567"; promo := lit "GIGA99"; amount := 99;
              network := lit "SMART" |}).
  vm_compute. reflexivity.
Defined.

(** *** Whitespace and round trip *)

(** X3: the answer to a non-empty message depends on its tokens only:
    leading, trailing and repeated whitespace make no difference. *)
Theorem validate_message_tokens_only (s t : pystr) :
  s <> [] -> t <> [] -> split s = split t ->
  validate_message (JStr s) = validate_message (JStr t).
Proof.
  intros Hs Ht H. unfold validate_message.
  destruct s as [|c s]; [contradiction|].
  destruct t as [|d t]; [contradiction|].
  now rewrite !split_strip, H.
Qed.

Lemma validate_message_tokens_only_witness :
  validate_message (JStr (lit "  09171234567   GIGA99 99 "))
  = validate_message (JStr (lit "09171234567 GIGA99 99")).
Proof.
  apply validate_message_tokens_only;
    [discriminate | discriminate | vm_compute; reflexivity].
Defined.

Lemma amount_text_ok_all : Datetime.all_below 10001 amount_text_ok = true.
Proof. vm_compute. reflexivity. Qed.

(** [str] of an amount in range is a token that [int] reads back. *)
Lemma amount_text (n : Z) :
  1 <= n <= 10000 ->
  int_of_str (str_of_int n) = Some n
  /\ nospace (str_of_int n) = true
  /\ str_of_int n <> [].
Proof.
  intros Hn.
  assert (H : amount_text_ok n = true)
    by (apply (all_below_spec _ _ amount_text_ok_all); lia).
  unfold amount_text_ok in H.
  apply andb_true_iff in H as [H H3]. apply andb_true_iff in H as [H1 H2].
  destruct (int_of_str (str_of_int n)) as [k|]; [|discriminate].
  apply Z.eqb_eq in H1 as ->. repeat split; [exact H2|].
  intros E. rewrite E in H3. discriminate H3.
Qed.

(** X4: a structured result whose promo is itself a valid promo code
    (alphanumeric and at most 20 characters), written back as "msisdn
    promo amount", parses to the same result. *)
Theorem validate_message_round_trip (text : pystr) (parsed : reload_request) :
  validate_message (JStr text) = Valid parsed ->
  isalnum (promo parsed) = true ->
  len (promo parsed) <= 20 ->
  validate_message
    (JStr (msisdn parsed ++ lit " " ++ promo parsed ++ lit " "
           ++ str_of_int (amount parsed)))
  = Valid parsed.
Proof.
  intros H.
  apply validate_message_inv in H
    as (m & p & a & n & Hs & Hm & Hp & Hl & Ha & Hn & ->).
  cbn [msisdn promo amount network]. intros Hu Hlu.
  pose proof (split_tokens text) as Ht. rewrite Hs in Ht.
  apply Forall_cons_1 in Ht as [[Em Nm] _].
  destruct (upper_shape p) as (_ & _ & U3).
  destruct (amount_text n Hn) as (T1 & T2 & T3).
  pose proof Hu as Hu'. apply isalnum_all in Hu' as [Eu Au].
  rewrite (validate_message_three _ m (upper p) (str_of_int n));
    [|apply split_joined; auto using alnum_string_nospace].
  rewrite Hm, T1, U3, Hu.
  replace (20 <? len (upper p)) with false by (symmetry; apply Z.ltb_ge; lia).
  replace (n <=? 0) with false by (symmetry; apply Z.leb_gt; lia).
  replace (10000 <? n) with false by (symmetry; apply Z.ltb_ge; lia).
  reflexivity.
Qed.

Lemma validate_message_round_trip_witness :
  validate_message (JStr (lit "09171234567 GIGA99 99"))
  = Valid {| msisdn := lit "09171234567"; promo := lit "GIGA99"; amount := 99;
             network := lit "SMART" |}.
Proof.
  apply (validate_message_round_trip (lit "  09171234567   Giga99 +9_9 ")
           {| msisdn := lit "09171234567"; promo := lit "GIGA99"; amount := 99;
              network := lit "SMART" |});
    vm_compute; first [reflexivity | discriminate].
Defined.

End ParserProofs.

Module WebhookProofs.
Import Py Messenger StringFacts MessengerProofs ParserProofs ForwardProofs.

(** Only a non-empty string validates. *)
Lemma validate_message_truthy (j : json) (parsed : reload_request) :
  validate_message j = Valid parsed -> truthy j = true.
Proof.
  destruct j as [| | | |s| |]; try discriminate.
  cbn [validate_message truthy].
  now destruct s.
Qed.

(** The status codes of [forward_reply]. *)
Lemma forward_reply_code (r : post_result) :
  In (snd (forward_reply r)) [200; 502; 503; 504; 500].
Proof.
  unfold forward_reply, try_forward.
  destruct r as [e|response].
  - destruct e; cbn; auto 10.
  - destruct (raise_for_status response); [cbn; auto|].
    destruct (decoded response); cbn; auto.
Qed.

Lemma forward_reply_200 (r : post_result) :
  snd (forward_reply r) = 200 ->
  exists response j,
    r = PostReturns response
    /\ ~ 400 <= status_code response < 600
    /\ decoded response = Some j
    /\ fst (forward_reply r) = Json (lit "success") (lit "Transaction queued") (Some j).
Proof.
  unfold forward_reply, try_forward.
  destruct r as [e|response].
  - destruct e; cbn; discriminate.
  - unfold raise_for_status.
    destruct (400 <=? status_code response) eqn:H1;
      destruct (status_code response <? 600) eqn:H2; cbn [andb];
      try (cbn; discriminate);
      (destruct (decoded response) as [j|] eqn:Hd; [|cbn; discriminate]);
      intros _; exists response, j;
      (split; [reflexivity|]); (split; [|now split]);
      intros [L U]; first [apply Z.leb_gt in H1 | apply Z.ltb_ge in H2]; lia.
Qed.

Section Webhook.

Variable API_KEY : pystr.
Variable gateway : nat -> reload_request -> post_result.

Lemma webhook_accepted (req : request) (parsed : reload_request)
    (sent : list reload_request) :
  accepted API_KEY req parsed ->
  messenger_webhook API_KEY gateway req sent
  = (forward_reply (gateway (length sent) parsed), sent ++ [parsed]).
Proof.
  intros (Hk & m & Hj & Hv).
  unfold messenger_webhook, require_api_key, messenger_webhook_body.
  rewrite bool_decide_eq_true_2 by exact Hk. rewrite Hj.
  assert (Hm : m <> ∅).
  { intros ->. rewrite lookup_empty in Hv. discriminate Hv. }
  cbn [truthy]. rewrite bool_decide_eq_false_2 by exact Hm. cbn [negb].
  rewrite (validate_message_truthy _ _ Hv), Hv. reflexivity.
Qed.

Lemma webhook_refused (req : request) (sent : list reload_request) :
  (forall parsed, ~ accepted API_KEY req parsed) ->
  snd (messenger_webhook API_KEY gateway req sent) = sent
  /\ In (snd (fst (messenger_webhook API_KEY gateway req sent))) [400; 401; 500].
Proof.
  intros H. unfold messenger_webhook, require_api_key, messenger_webhook_body.
  destruct (bool_decide (X_API_Key req = Some API_KEY)) eqn:Hk;
    [apply bool_decide_eq_true_1 in Hk | cbn; auto].
  destruct (request_json req) as [data|] eqn:Hj; [|cbn; auto].
  destruct (negb (truthy data)); [cbn; auto|].
  destruct data as [| | | | | |m]; try (cbn; auto; fail).
  destruct (negb (truthy _)); [cbn; auto|].
  destruct (validate_message _) as [parsed|e] eqn:Hv; [|cbn; auto].
  exfalso. apply (H parsed). split; [exact Hk|]. now exists m.
Qed.

Lemma accepted_or_not (req : request) :
  (exists parsed, accepted API_KEY req parsed)
  \/ (forall parsed, ~ accepted API_KEY req parsed).
Proof.
  unfold accepted.
  destruct (decide (X_API_Key req = Some API_KEY)) as [Hk|Hk];
    [|right; intros parsed [H _]; contradiction].
  destruct (request_json req) as [[| | | | | |m]|];
    try (right; intros parsed (_ & m' & E & _); discriminate E).
  destruct (validate_message (default JNull (m !! (lit "message"))))
    as [parsed|e] eqn:Hv.
  - left. exists parsed. split; [exact Hk|]. now exists m.
  - right. intros parsed (_ & m' & E & Hv'). injection E as <-. congruence.
Qed.

(** X5: the webhook posts to the gateway exactly when the request carries
    the right key and a JSON object whose message validates; it then posts
    the parsed request once and answers what the forwarder answers.  In
    every other case nothing is posted and the answer is 400, 401 or 500;
    with a wrong or missing key it is 401 whatever the body holds. *)
Theorem webhook_posts_iff (req : request) (sent : list reload_request) :
  (forall parsed,
      accepted API_KEY req parsed ->
      messenger_webhook API_KEY gateway req sent
      = (forward_reply (gateway (length sent) parsed), sent ++ [parsed]))
  /\ ((exists parsed, accepted API_KEY req parsed)
      <-> snd (messenger_webhook API_KEY gateway req sent) <> sent)
  /\ ((forall parsed, ~ accepted API_KEY req parsed) ->
      In (snd (fst (messenger_webhook API_KEY gateway req sent)))
         [400; 401; 500])
  /\ (X_API_Key req <> Some API_KEY ->
      messenger_webhook API_KEY gateway req sent
      = ((Aborted (lit "Invalid API key"), 401), sent)).
Proof.
  split; [intros parsed; apply webhook_accepted|]. split; [|split].
  - split.
    + intros [parsed H]. rewrite (webhook_accepted _ _ sent H). cbn [snd].
      intros E. apply (f_equal (@length _)) in E.
      rewrite length_app in E. cbn [length] in E. lia.
    + intros Hs. destruct (accepted_or_not req) as [H|H]; [exact H|].
      now destruct (webhook_refused req sent H).
  - intros H. now destruct (webhook_refused req sent H).
  - intros Hk. unfold messenger_webhook, require_api_key.
    now rewrite bool_decide_eq_false_2.
Qed.

(** X6: the webhook answers with one of seven status codes, and with no
    other. *)
Theorem webhook_status_codes (req : request) (sent : list reload_request) :
  In (snd (fst (messenger_webhook API_KEY gateway req sent)))
     [200; 400; 401; 500; 502; 503; 504].
Proof.
  destruct (accepted_or_not req) as [[parsed H]|H].
  - rewrite (webhook_accepted _ _ sent H). cbn [fst].
    pose proof (forward_reply_code (gateway (length sent) parsed)) as Hc.
    cbn [In] in *. intuition.
  - destruct (webhook_refused req sent H) as [_ Hc].
    cbn [In] in *. intuition.
Qed.

(** X7: the webhook never reports success on its own: an answer of 200
    means that the request was accepted, that the one POST came back with
    a status outside 400 to 599 and a body that decodes, and the answer
    carries that body. *)
Theorem webhook_success_means_gateway_replied (req : request)
    (sent : list reload_request) :
  snd (fst (messenger_webhook API_KEY gateway req sent)) = 200 ->
  exists parsed response j,
    accepted API_KEY req parsed
    /\ gateway (length sent) parsed = PostReturns response
    /\ ~ 400 <= status_code response < 600
    /\ decoded response = Some j
    /\ messenger_webhook API_KEY gateway req sent
       = ((Json (lit "success") (lit "Transaction queued") (Some j), 200),
          sent ++ [parsed]).
Proof.
  intros Hc. destruct (accepted_or_not req) as [[parsed H]|H].
  - rewrite (webhook_accepted _ _ sent H) in *. cbn [fst] in Hc.
    destruct (forward_reply_200 _ Hc) as (response & j & Hr & Hs & Hd & Hb).
    exists parsed, response, j. repeat (split; [assumption|]).
    rewrite (surjective_pairing (forward_reply _)), Hb, Hc. reflexivity.
  - destruct (webhook_refused req sent H) as [_ Hi]. rewrite Hc in Hi.
    cbn [In] in Hi. intuition discriminate.
Qed.

End Webhook.

Lemma webhook_success_means_gateway_replied_witness :
  let req := {| X_API_Key := Some (lit "secret");
                request_json :=
                  Some (JObj {[ lit "message" :=
                                  JStr (lit "09171234567 GIGA99 99") ]}) |} in
  let gateway := fun (_ : nat) (_ : reload_request) =>
                   PostReturns {| status_code := 200; decoded := Some JNull |} in
  exists parsed, snd (messenger_webhook (lit "secret") gateway req []) = [parsed].
Proof.
  intros req gateway.
  destruct (webhook_success_means_gateway_replied (lit "secret") gateway req [])
    as (parsed & response & j & _ & _ & _ & _ & E).
  - vm_compute. reflexivity.
  - exists parsed. now rewrite E.
Defined.

End WebhookProofs.

Module IntakeProofs.
Import Py Gateway StringFacts DatetimeProofs UuidProofs GatewayProofs.

(** *** From the webhook to the queue *)

(** X8: whatever the webhook forwards, the gateway queues: the JSON body
    of a validated request passes the gateway's own checks, and the record
    keeps its msisdn, promo and amount, and the network that the validator
    inferred in place of UNKNOWN. *)
Theorem forwarded_request_is_queued (text : json)
    (parsed : Messenger.reload_request) (e : env) (q : list transaction) :
  Messenger.validate_message text = Messenger.Valid parsed ->
  exists txn,
    reload e (Some (Messenger.payload_json parsed)) q
    = ((Queued (generate_reference e) (Z.of_nat (length q) + 1), 200),
       q ++ [txn])
    /\ msisdn txn = JStr (Messenger.msisdn parsed)
    /\ promo txn = JStr (Messenger.promo parsed)
    /\ amount txn = Messenger.amount parsed
    /\ network txn = JStr (Messenger.network parsed)
    /\ network txn <> JStr (lit "UNKNOWN").
Proof.
  intros H.
  destruct text as [| | | |s| |]; try discriminate.
  destruct (ParserProofs.validate_message_inv _ _ H)
    as (m & p & a & n & _ & _ & _ & _ & _ & Hn & ->).
  unfold Messenger.payload_json.
  cbn [Messenger.msisdn Messenger.promo Messenger.amount Messenger.network].
  eexists. split.
  - apply reload_commits.
    + intros E. apply (f_equal (fun x => x !! (lit "msisdn"))) in E.
      rewrite lookup_empty in E. discriminate E.
    + repeat split; eexists; reflexivity.
    + apply validate_amount_iff. split; [reflexivity | lia].
  - cbn [msisdn promo amount network new_transaction].
    repeat (split; [reflexivity|]).
    destruct (startswith (upper p) (lit "G")); discriminate.
Qed.

Lemma forwarded_request_is_queued_witness :
  exists txn,
    reload sample_env (Some (Messenger.payload_json Messenger.sample_request)) []
    = ((Queued (lit "TXN-20240102-ABCDEF01") 1, 200), [txn])
    /\ network txn = JStr (lit "SMART").
Proof.
  destruct (forwarded_request_is_queued (JStr (lit "09171234567 GIGA99 99"))
              Messenger.sample_request sample_env [] eq_refl)
    as (txn & Hr & _ & _ & _ & Hn & _).
  exists txn. split; [exact Hr | exact Hn].
Defined.

(** *** Listing the queue *)

(** X9: the list operation reports the size of the whole queue and
    returns its last records, ten of them or all when there are fewer, in
    the order of the queue. *)
Theorem get_queue_window (q : list transaction) :
  fst (get_queue q) = Z.of_nat (length q)
  /\ length (snd (get_queue q)) = Nat.min 10 (length q)
  /\ (length (snd (get_queue q)) <= 10)%nat
  /\ exists older, q = older ++ snd (get_queue q).
Proof.
  unfold get_queue. cbn [fst snd].
  split; [reflexivity|]. rewrite length_skipn.
  split; [lia|]. split; [lia|].
  exists (firstn (length q - 10) q). symmetry. apply firstn_skipn.
Qed.

(** X10: right after a successful intake the list operation reports the
    position just answered as the size of the queue, and the record just
    committed is the last one it returns. *)
Theorem get_queue_after_intake (e : env) (request_json : option json)
    (q q' : list transaction) (ref : pystr) (pos code : Z) :
  reload e request_json q = ((Queued ref pos, code), q') ->
  fst (get_queue q') = pos
  /\ exists txn,
       q' = q ++ [txn] /\ reference txn = ref
       /\ last (snd (get_queue q')) = Some txn.
Proof.
  intros H.
  apply reload_queued_inv in H as (m & a & _ & _ & _ & _ & _ & -> & _ & ->).
  unfold get_queue. cbn [fst snd]. rewrite length_app. cbn [length].
  split; [lia|]. eexists. split; [reflexivity|]. split; [reflexivity|].
  rewrite skipn_app.
  replace (length q + 1 - 10 - length q)%nat with 0%nat by lia.
  cbn [skipn]. apply last_snoc.
Qed.

Lemma get_queue_after_intake_witness :
  fst (get_queue
         (snd (reload sample_env
                 (Some (JObj (fields (lit "09171234567") (lit "GIGA99") (JInt 99)))) [])))
  = 1.
Proof.
  apply (get_queue_after_intake sample_env
           (Some (JObj (fields (lit "09171234567") (lit "GIGA99") (JInt 99)))) []
           _ (lit "TXN-20240102-ABCDEF01") 1 200).
  vm_compute. reflexivity.
Defined.

(** X11: counted from the start of the process, the queue size that the
    health check and the list operation report is the number of intakes
    answered 200 so far. *)
Theorem reported_size_counts_intakes (ops : list op) :
  let answers := fst (run ops []) in
  let q := snd (run ops []) in
  health_check q
  = (lit "healthy", lit "android-gateway", Z.of_nat (successes answers))
  /\ fst (get_queue q) = Z.of_nat (successes answers).
Proof.
  intros answers q.
  destruct (run_appends ops []) as (added & Hq & Hl).
  fold q in Hq. fold answers in Hl. cbn [app] in Hq.
  unfold health_check, get_queue. cbn [fst]. now rewrite Hq, Hl.
Qed.

(** *** What the intake refuses *)

Lemma missing_in_obj (m : gmap pystr json) (fields0 : list pystr) :
  missing_in (JObj m) fields0
  = Return (filter (fun field => m !! field = None) fields0).
Proof.
  induction fields0 as [|field rest IH]; [reflexivity|].
  cbn [missing_in has_field]. rewrite IH, filter_cons.
  destruct (m !! field) as [x|] eqn:Hf.
  - rewrite bool_decide_eq_true_2 by (now exists x).
    now rewrite decide_False by discriminate.
  - rewrite bool_decide_eq_false_2 by (intros [x Hx]; discriminate).
    now rewrite decide_True by reflexivity.
Qed.

(** X12: a mapping that is not empty and lacks a required field is
    answered 400 with a message that lists exactly the required fields it
    lacks, in the order msisdn, promo, amount; the queue is left alone. *)
Theorem missing_fields_listed (e : env) (m : gmap pystr json)
    (q : list transaction) :
  m <> ∅ -> ~ complete m ->
  reload e (Some (JObj m)) q
  = ((Error (lit "Missing required fields: "
             ++ join (filter (fun field => m !! field = None)
                         required_fields)), 400), q).
Proof.
  intros Hne Hc. unfold reload. cbn [truthy].
  rewrite bool_decide_eq_false_2 by exact Hne. cbn [negb].
  rewrite missing_in_obj.
  destruct (filter (fun field => m !! field = None) required_fields)
    as [|f r] eqn:Hf; [|reflexivity].
  exfalso. apply Hc.
  assert (H : forall field, In field required_fields -> is_Some (m !! field)).
  { intros field Hi. destruct (m !! field) as [x|] eqn:Hx; [now exists x|].
    assert (Hin : field ∈ filter (fun field => m !! field = None) required_fields).
    { apply list_elem_of_filter. split; [exact Hx|]. now apply list_elem_of_In. }
    rewrite Hf in Hin. now apply not_elem_of_nil in Hin. }
  repeat split; apply H; cbn; auto.
Qed.

Lemma missing_fields_listed_witness :
  reload sample_env
    (Some (JObj {[ (lit "promo") := JStr (lit "GIGA99") ]})) []
  = ((Error (lit "Missing required fields: msisdn, amount"), 400), []).
Proof.
  rewrite (missing_fields_listed sample_env
             {[ (lit "promo") := JStr (lit "GIGA99") ]} []).
  - reflexivity.
  - intros E. apply (f_equal (fun x => x !! (lit "promo"))) in E.
    vm_compute in E. discriminate E.
  - intros ([x Hx] & _). vm_compute in Hx. discriminate Hx.
Defined.

(** The answers of [reload]: queued with 200, refused with 400, or the
    internal error with 500. *)
Lemma reload_reply_cases (e : env) (request_json : option json)
    (q : list transaction) :
  (exists ref pos, fst (reload e request_json q) = (Queued ref pos, 200))
  \/ (snd (fst (reload e request_json q)) = 400
      /\ forall ref pos, fst (fst (reload e request_json q)) <> Queued ref pos)
  \/ fst (reload e request_json q) = internal_error.
Proof.
  unfold reload.
  destruct request_json as [data|]; [|now right; right].
  destruct (negb (truthy data)); [right; left; now split|].
  destruct (missing_in data required_fields) as [[|f r]|ex];
    [|right; left; now split | now right; right].
  destruct data as [| | | | | |m]; try (now right; right).
  destruct (validate_amount m) as [amount|[t| | |]];
    first [ left; eexists _, _; reflexivity
          | right; left; now split
          | now right; right ].
Qed.

(** X13: an intake is answered 200, 400 or 500 and nothing else; the
    queue grows, by exactly one record, when the answer is 200, and is left
    as it was when the answer is 400 or 500. *)
Theorem reload_status_and_queue (e : env) (request_json : option json)
    (q : list transaction) :
  let code := snd (fst (reload e request_json q)) in
  In code [200; 400; 500]
  /\ (code = 200 <-> exists txn, snd (reload e request_json q) = q ++ [txn])
  /\ (code <> 200 -> snd (reload e request_json q) = q).
Proof.
  intros code. subst code.
  assert (Hgrow : forall txn : transaction, q ++ [txn] <> q).
  { intros txn E. apply (f_equal (@length _)) in E.
    rewrite length_app in E. cbn [length] in E. lia. }
  destruct (reload_cases e request_json q)
    as [(m & amount & _ & _ & _ & _ & Hr) | [Hq Hno]].
  - rewrite Hr. cbn [fst snd]. split; [cbn; auto|].
    split; [|intros H; now contradiction H].
    split; [intros _; eexists; reflexivity | reflexivity].
  - destruct (reload_reply_cases e request_json q)
      as [(ref & pos & H) | [[Hc Hb] | H]].
    + exfalso. apply (Hno ref pos 200). exact H.
    + rewrite Hc, Hq. split; [cbn; auto|].
      split; [|reflexivity].
      split; [discriminate | intros [txn E]; now destruct (Hgrow txn)].
    + rewrite H, Hq. cbn [internal_error fst snd]. split; [cbn; auto|].
      split; [|reflexivity].
      split; [discriminate | intros [txn E]; now destruct (Hgrow txn)].
Qed.

(** X14: with all three fields present the amount decides the answer.  An
    integer that is zero or negative is answered 400 with "Amount must be
    positive"; a string that is no integer, null, a list or an object is
    answered 400; an infinite float makes [int] raise an error that the
    handler of the amount does not catch, and is answered 500.  The queue
    is left alone in all these cases. *)
Theorem invalid_amount_answers (e : env) (m : gmap pystr json)
    (q : list transaction) :
  m <> ∅ -> complete m ->
  let amount0 := default JNull (m !! (lit "amount")) in
  let answer := reload e (Some (JObj m)) q in
  (forall n, int_of amount0 = Return n -> n <= 0 ->
     answer = ((InvalidAmount (ValueError (Some (lit "Amount must be positive"))),
                400), q))
  /\ (forall s, amount0 = JStr s -> int_of_str s = None ->
        answer = ((InvalidAmount (ValueError None), 400), q))
  /\ (amount0 = JFloat NaN ->
        answer = ((InvalidAmount (ValueError None), 400), q))
  /\ ((amount0 = JNull \/ (exists l, amount0 = JArr l)
       \/ (exists o, amount0 = JObj o)) ->
        answer = ((InvalidAmount TypeError, 400), q))
  /\ (forall negative, amount0 = JFloat (Infinity negative) ->
        answer = ((Error (lit "Internal server error"), 500), q)).
Proof.
  intros Hne Hc amount0 answer. subst answer.
  assert (E : reload e (Some (JObj m)) q
              = match validate_amount m with
                | Raise (ValueError _ as ex) | Raise (TypeError as ex) =>
                    ((InvalidAmount ex, 400), q)
                | Raise _ => (internal_error, q)
                | Return amount =>
                    ((Queued (generate_reference e)
                        (Z.of_nat (length (q ++ [new_transaction e m
                                     (generate_reference e) amount]))), 200),
                     q ++ [new_transaction e m (generate_reference e) amount])
                end).
  { unfold reload. cbn [truthy].
    rewrite bool_decide_eq_false_2 by exact Hne. cbn [negb].
    now rewrite (missing_in_complete m Hc). }
  rewrite E. unfold validate_amount. fold amount0.
  repeat split.
  - intros n -> Hn. now replace (n <=? 0) with true by (symmetry; lia).
  - intros s -> Hs. cbn [int_of]. now rewrite Hs.
  - now intros ->.
  - intros [-> | [[l ->] | [o ->]]]; reflexivity.
  - now intros negative ->.
Qed.

Lemma invalid_amount_answers_witness :
  reload sample_env
    (Some (JObj (fields (lit "09171234567") (lit "GIGA99") (JFloat (Infinity false))))) []
  = ((Error (lit "Internal server error"), 500), []).
Proof.
  destruct (fields_complete (lit "09171234567") (lit "GIGA99") (JFloat (Infinity false)))
    as [Hne Hc].
  destruct (invalid_amount_answers sample_env _ [] Hne Hc)
    as (_ & _ & _ & _ & H).
  now apply (H false).
Defined.

(** *** Invariants of the queue *)

(** The records of the queue after a run are those before it and those
    that the intakes of the run built. *)
Lemma run_records (ops : list op) :
  forall (q : list transaction) (txn : transaction),
    In txn (snd (run ops q)) ->
    In txn q
    \/ exists e m amount0,
         In (Reload e (Some (JObj m))) ops
         /\ validate_amount m = Return amount0
         /\ txn = new_transaction e m (generate_reference e) amount0.
Proof.
  induction ops as [|o ops IH]; intros q txn H; [now left|].
  cbn [run] in H.
  destruct (step o q) as [a q1] eqn:Hs.
  destruct (run ops q1) as [answers q2] eqn:Hr. cbn [snd] in H.
  assert (H2 : In txn (snd (run ops q1))) by now rewrite Hr.
  destruct (IH q1 txn H2) as [H1 | (e & m & n & Hi & Hv & Ht)];
    [|right; exists e, m, n; split; [now right | now split]].
  destruct o as [e rj| | |r]; cbn [step] in Hs;
    try (injection Hs as _ <-; now left).
  destruct (reload e rj q) as [r q0] eqn:Hq. injection Hs as _ <-.
  destruct (reload_cases e rj q)
    as [(m & n & -> & _ & _ & Hv & Hc) | [Hsame _]].
  - rewrite Hc in Hq. injection Hq as _ <-.
    apply in_app_or in H1 as [H1 | [<- | []]]; [now left|].
    right. exists e, m, n. split; [now left | now split].
  - rewrite Hq in Hsame. cbn [snd] in Hsame. subst q0. now left.
Qed.

(** X15: every record that the queue holds, from the start of the process
    on, was built by one intake of the run: its status is QUEUED, its
    amount is above zero, its reference is the one generated for that
    intake, and it keeps the caller's address and the time of that intake. *)
Theorem queue_records_well_formed (ops : list op) (txn : transaction) :
  In txn (snd (run ops [])) ->
  status txn = lit "QUEUED"
  /\ 0 < amount txn
  /\ exists e request_json,
       In (Reload e request_json) ops
       /\ reference txn = generate_reference e
       /\ remote_addr txn = request_remote_addr e
       /\ timestamp txn
          = Datetime.isoformat (Datetime.now (clock_timestamp e)).
Proof.
  intros H.
  destruct (run_records ops [] txn H) as [[] | (e & m & n & Hi & Hv & ->)].
  apply validate_amount_iff in Hv as [_ Hn].
  split; [reflexivity|]. split; [exact Hn|].
  exists e, (Some (JObj m)). now repeat split.
Qed.

Lemma queue_records_well_formed_witness :
  0 < amount (new_transaction sample_env
                (fields (lit "09171234567") (lit "GIGA99") (JInt 99))
                (generate_reference sample_env) 99).
Proof.
  apply (queue_records_well_formed
           [Reload sample_env
              (Some (JObj (fields (lit "09171234567") (lit "GIGA99") (JInt 99))))]).
  vm_compute. left. reflexivity.
Defined.

Lemma get_status_app (r : pystr) (q added : list transaction)
    (t : transaction) (code : Z) :
  get_status r q = (Found t, code) ->
  get_status r (q ++ added) = (Found t, code).
Proof.
  induction q as [|x q IH]; cbn [get_status app]; [discriminate|].
  case_bool_decide; [trivial | exact IH].
Qed.

(** X16: a reference that resolves to a record resolves to the same
    record after any further requests: later intakes, even with the same
    reference, never change the answer of a lookup that already succeeds. *)
Theorem lookup_is_stable (ops : list op) (q : list transaction)
    (r : pystr) (t : transaction) :
  get_status r q = (Found t, 200) ->
  get_status r (snd (run ops q)) = (Found t, 200).
Proof.
  intros H. destruct (run_appends ops q) as (added & -> & _).
  now apply get_status_app.
Qed.

Lemma lookup_is_stable_witness :
  exists t,
    get_status (lit "TXN-20240102-ABCDEF01")
      (snd (run [Reload sample_env_later
                   (Some (JObj (fields (lit "09181234567") (lit "UNLI50") (JInt 50))))]
              (snd (reload sample_env
                      (Some (JObj (fields (lit "09171234567") (lit "GIGA99") (JInt 99))))
                      []))))
    = (Found t, 200)
    /\ msisdn t = JStr (lit "09171234567").
Proof.
  exists (new_transaction sample_env
            (fields (lit "09171234567") (lit "GIGA99") (JInt 99))
            (lit "TXN-20240102-ABCDEF01") 99).
  split; [|reflexivity].
  apply lookup_is_stable. vm_compute. reflexivity.
Defined.

Lemma positions_skip (a : answer) (rest : list answer) :
  is_success a = false -> positions (a :: rest) = positions rest.
Proof.
  destruct a as [[[msg|ex|ref pos] code]| | |]; try reflexivity.
  cbn [is_success positions].
  destruct code as [|c|c]; try reflexivity.
  repeat (destruct c as [c|c|]; try reflexivity; try discriminate).
Qed.

Lemma run_positions (ops : list op) :
  forall q,
    positions (fst (run ops q))
    = map Z.of_nat (seq (S (length q)) (successes (fst (run ops q)))).
Proof.
  induction ops as [|o ops IH]; intros q; [reflexivity|].
  cbn [run].
  destruct (step o q) as [a q1] eqn:Hs.
  specialize (IH q1). destruct (run ops q1) as [answers q2].
  cbn [fst] in *. unfold successes in *. rewrite filter_cons.
  destruct o as [e rj| | |r]; cbn [step] in Hs;
    try (injection Hs as <- <-; rewrite decide_False by discriminate;
         exact IH).
  destruct (reload e rj q) as [r q0] eqn:Hq. injection Hs as <- <-.
  destruct (reload_cases e rj q)
    as [(m & n & _ & _ & _ & _ & Hc) | [Hsame Hno]].
  - rewrite Hc in Hq. injection Hq as <- <-.
    rewrite decide_True by reflexivity.
    cbn [positions length seq map]. rewrite IH, length_app. cbn [length].
    f_equal; [lia|]. now replace (length q + 1)%nat with (S (length q)) by lia.
  - rewrite Hq in Hsame, Hno. cbn [fst snd] in *. subst q0.
    assert (Hf : is_success (ReloadAnswer r) = false).
    { destruct r as [[msg|ex|ref pos] code]; try reflexivity.
      now destruct (Hno ref pos code). }
    rewrite decide_False by (rewrite Hf; discriminate).
    rewrite positions_skip by exact Hf. exact IH.
Qed.

(** X17: counted from the start of the process, the positions answered by
    the successful intakes are 1, 2, 3 and so on, without gap or repeat,
    whatever other requests come in between. *)
Theorem positions_are_consecutive (ops : list op) :
  positions (fst (run ops []))
  = map Z.of_nat (seq 1 (successes (fst (run ops [])))).
Proof. apply (run_positions ops []). Qed.

(** *** The random part of a reference *)

Lemma hex_split (a b : nat) :
  forall n, Uuid.hex (a + b) n
            = Uuid.hex a (n / 16 ^ Z.of_nat b) ++ Uuid.hex b n.
Proof.
  induction b as [|b IH]; intros n.
  - rewrite Nat.add_0_r. cbn [Uuid.hex Z.of_nat]. rewrite Z.pow_0_r, Z.div_1_r.
    now rewrite append_nil_r.
  - rewrite Nat.add_succ_r. cbn [Uuid.hex]. rewrite IH, append_assoc.
    rewrite Nat2Z.inj_succ, Z.pow_succ_r by lia.
    rewrite Z.div_div by lia. reflexivity.
Qed.

(** Setting the version and the variant leaves the upper 32 bits alone. *)
Lemma uuid4_upper_bits (r : Z) :
  Uuid.uuid4 r / 2 ^ 96 = (r mod 2 ^ 128) / 2 ^ 96.
Proof.
  unfold Uuid.uuid4. cbv zeta.
  rewrite <- !Z.shiftr_div_pow2 by lia.
  rewrite Z.shiftr_lor, Z.shiftr_land, Z.shiftr_lor, Z.shiftr_land.
  change (Z.shiftr (Z.lnot (Z.shiftl 0xc000 48)) 96) with (-1).
  change (Z.shiftr (Z.shiftl 0x8000 48) 96) with 0.
  change (Z.shiftr (Z.lnot (Z.shiftl 0xf000 64)) 96) with (-1).
  change (Z.shiftr (Z.shiftl 4 76) 96) with 0.
  now rewrite !Z.land_m1_r, !Z.lor_0_r.
Qed.

(** X18: of the sixteen random bytes behind a reference only the first
    four are used: the suffix is the upper 32 bits of the random number in
    upper-case hexadecimal; the other twelve bytes, and the version and
    variant bits of the UUID, never reach the reference. *)
Theorem reference_random_bits (e : env) :
  generate_reference e
  = lit "TXN-" ++ Datetime.strftime_Ymd (Datetime.now (clock_reference e))
    ++ lit "-" ++ upper (Uuid.hex 8 ((urandom e mod 2 ^ 128) / 2 ^ 96)).
Proof.
  unfold generate_reference. do 4 f_equal.
  rewrite take_8_str.
  change 32%nat with (8 + 24)%nat. rewrite hex_split.
  change (16 ^ Z.of_nat 24) with (2 ^ 96). rewrite uuid4_upper_bits.
  rewrite <- (hex_length 8 (urandom e mod 2 ^ 128 / 2 ^ 96)) at 1.
  apply take_append.
Qed.

(** *** Bodies that are no JSON object *)

(** X19: a body that is not a JSON object is never queued.  A number
    other than zero and the value true are answered 500; so is a list that
    holds the three field names as strings, because reading its amount
    fails in a way the handler does not expect; a list that lacks one of
    the names is answered 400. *)
Theorem non_object_bodies (e : env) (q : list transaction) :
  (forall data,
      (forall m, data <> JObj m) ->
      snd (reload e (Some data) q) = q
      /\ In (snd (fst (reload e (Some data) q))) [400; 500])
  /\ (forall n, n <> 0 -> reload e (Some (JInt n)) q = (internal_error, q))
  /\ reload e (Some (JBool true)) q = (internal_error, q)
  /\ (forall l,
        l <> [] ->
        existsb (is_str (lit "msisdn")) l && existsb (is_str (lit "promo")) l
        && existsb (is_str (lit "amount")) l = true ->
        reload e (Some (JArr l)) q = (internal_error, q))
  /\ (forall l,
        l <> [] ->
        existsb (is_str (lit "msisdn")) l && existsb (is_str (lit "promo")) l
        && existsb (is_str (lit "amount")) l = false ->
        snd (fst (reload e (Some (JArr l)) q)) = 400).
Proof.
  repeat match goal with |- _ /\ _ => split end.
  - intros data Hd.
    destruct (reload_rejects e (Some data) q) as [Hq Hno].
    { intros m a E. injection E as ->. now destruct (Hd m). }
    split; [exact Hq|].
    destruct (reload_reply_cases e (Some data) q)
      as [(ref & pos & H) | [[Hc _] | H]].
    + now destruct (Hno ref pos 200).
    + rewrite Hc. cbn; auto.
    + rewrite H. cbn; auto.
  - intros n Hn. unfold reload. cbn [truthy].
    now replace (n =? 0) with false by (symmetry; apply Z.eqb_neq; exact Hn).
  - reflexivity.
  - intros l Hl H. apply andb_true_iff in H as [H H3].
    apply andb_true_iff in H as [H1 H2].
    unfold reload. cbn [truthy missing_in required_fields has_field].
    destruct l; [contradiction|]. cbn [negb].
    now rewrite H1, H2, H3.
  - intros l Hl H.
    unfold reload. cbn [truthy missing_in required_fields has_field].
    destruct l; [contradiction|]. cbn [negb].
    destruct (existsb (is_str (lit "msisdn")) _);
      destruct (existsb (is_str (lit "promo")) _);
      destruct (existsb (is_str (lit "amount")) _); try discriminate; reflexivity.
Qed.

(** *** What a lookup answers *)

(** X20: a lookup answers either 200 with a record of the queue that
    carries the reference asked for, or 404 with NOT_FOUND; it answers 404
    exactly when no record of the queue carries that reference. *)
Theorem get_status_sound (r : pystr) (q : list transaction) :
  ((exists t, get_status r q = (Found t, 200) /\ In t q /\ reference t = r)
   \/ get_status r q
      = (NotFound (lit "NOT_FOUND") (lit "Transaction " ++ r ++ lit " not found"), 404))
  /\ (snd (get_status r q) = 404 <-> forall t, In t q -> reference t <> r).
Proof.
  assert (D : (exists t, In t q /\ reference t = r)
              \/ (forall t, In t q -> reference t <> r)).
  { induction q as [|x q IH]; [right; intros t []|].
    destruct (decide (reference x = r)) as [E|N].
    - left. exists x. split; [now left | exact E].
    - destruct IH as [(t & Hi & Ht) | H].
      + left. exists t. split; [now right | exact Ht].
      + right. intros t [<-|Hi]; [exact N | now apply H]. }
  destruct D as [H | H].
  - destruct (get_status_found r q H)
      as (first & before & after & Hq & Hf & _ & Hg).
    split.
    + left. exists first. split; [exact Hg|]. split; [|exact Hf].
      rewrite Hq. apply in_or_app. right. now left.
    + rewrite Hg. cbn [snd]. split; [discriminate|].
      intros Hn. destruct H as (t & Hi & Ht). now destruct (Hn t Hi).
  - rewrite (get_status_not_found r q H). split; [now right|].
    cbn [snd]. now split.
Qed.

End IntakeProofs.
